(** * cypress-mcp: the Cypress connector and its WebSocket server

    A shallow embedding of [server/cypress_mcp_connector.py] and
    [server/mcp_websocket_server.py].

    The Python code is dynamically typed and works by side effect on two
    pieces of process state: the file system and the current working
    directory.  The embedding keeps both:

    - values that travel through the protocol are [pyval]s (what
      [json.loads] produces);
    - the operating-system primitives the code calls ([os.path.join],
      [os.path.exists], [os.listdir], [os.getcwd], [os.chdir], [open] in
      mode ['w']) act on a small POSIX directory tree;
    - methods run in a state-and-exception monad [M]: a Python exception
      leaves the state as it was when it was raised;
    - [subprocess.run] is the one collaborator that is not modelled: it is
      a parameter of the development. *)

From Stdlib Require Import String Ascii List ZArith Bool Lia DecimalString.
From Stdlib Require Import Floats.PrimFloat.
Import ListNotations.

Set Warnings "-register-all".
Local Open Scope string_scope.

(* ===================================================================== *)
(** * Python strings *)
(* ===================================================================== *)

Module Str.

(** [s.endswith(suf)]: some tail of [s] is [suf]. *)
Fixpoint endswith (s suf : string) : bool :=
  if String.eqb s suf then true
  else match s with
       | EmptyString => false
       | String _ s' => endswith s' suf
       end.

(** [s.startswith(p)]. *)
Fixpoint startswith (s p : string) {struct p} : bool :=
  match p with
  | EmptyString => true
  | String a p' =>
      match s with
      | EmptyString => false
      | String b s' => Ascii.eqb a b && startswith s' p'
      end
  end.

(** [sep.join(l)] on a list of strings. *)
Definition join (sep : string) (l : list string) : string := String.concat sep l.

(** [s.split('/')]: the components between slashes; never empty. *)
Fixpoint split_slash (s : string) : list string :=
  match s with
  | EmptyString => [EmptyString]
  | String c s' =>
      if Ascii.eqb c "/" then EmptyString :: split_slash s'
      else match split_slash s' with
           | [] => [String c EmptyString]
           | h :: t => String c h :: t
           end
  end.

(** The characters of a string, as one-character strings: what iterating
    over a [str] yields. *)
Fixpoint chars (s : string) : list string :=
  match s with
  | EmptyString => []
  | String c s' => String c EmptyString :: chars s'
  end.

End Str.

(* ===================================================================== *)
(** * [posixpath.join] *)
(* ===================================================================== *)

(** One round of the loop of [posixpath.join]: an absolute component
    discards what came before it; otherwise it is appended, with a slash
    unless the path so far is empty or already ends with one. *)
Definition join_step (path b : string) : string :=
  if Str.startswith b "/" then b
  else if String.eqb path "" || Str.endswith path "/" then path ++ b
  else path ++ "/" ++ b.

(** [os.path.join(a, *p)]. *)
Definition os_path_join (a : string) (p : list string) : string :=
  fold_left join_step p a.

(* ===================================================================== *)
(** * Python values and exceptions *)
(* ===================================================================== *)

(** What [json.loads] can return, and what the methods pass around.  A
    [dict] keeps its items in insertion order. *)
Inductive pyval : Type :=
| PNone
| PBool (b : bool)
| PInt (z : Z)
| PFloat (f : float)
| PStr (s : string)
| PList (l : list pyval)
| PDict (d : list (string * pyval)).

(** [type(v).__name__]. *)
Definition type_name (v : pyval) : string :=
  match v with
  | PNone => "NoneType"
  | PBool _ => "bool"
  | PInt _ => "int"
  | PFloat _ => "float"
  | PStr _ => "str"
  | PList _ => "list"
  | PDict _ => "dict"
  end.

(** [bool(v)]: the test behind [if not test_specs]. *)
Definition truthy (v : pyval) : bool :=
  match v with
  | PNone => false
  | PBool b => b
  | PInt z => negb (Z.eqb z 0)
  | PFloat f => negb (PrimFloat.eqb f 0%float)
  | PStr s => negb (String.eqb s "")
  | PList l => match l with [] => false | _ :: _ => true end
  | PDict d => match d with [] => false | _ :: _ => true end
  end.

(** [v == 'literal']: only a [str] equals a [str]. *)
Definition eq_str (v : pyval) (s : string) : bool :=
  match v with
  | PStr t => String.eqb t s
  | _ => false
  end.

(** Items of a [dict] (and entries of a directory): first match wins. *)
Fixpoint assoc {A : Type} (k : string) (l : list (string * A)) : option A :=
  match l with
  | [] => None
  | (k', v) :: l' => if String.eqb k k' then Some v else assoc k l'
  end.

(** [d[k] = v]: replace in place, or append a new item. *)
Fixpoint assoc_set {A : Type} (k : string) (v : A) (l : list (string * A))
  : list (string * A) :=
  match l with
  | [] => [(k, v)]
  | (k', v') :: l' =>
      if String.eqb k k' then (k, v) :: l' else (k', v') :: assoc_set k v l'
  end.

(** [{**d1, **d2}]. *)
Definition dict_merge (d1 d2 : list (string * pyval)) : list (string * pyval) :=
  fold_left (fun d kv => assoc_set (fst kv) (snd kv) d) d2 d1.

(** The exception classes the code can meet; all derive from [Exception]. *)
Inductive exn_class : Type :=
| ValueError
| TypeError
| AttributeError
| JSONDecodeError
| FileNotFoundError
| NotADirectoryError
| IsADirectoryError
| PermissionError
| OSError
| UnicodeDecodeError.

(** An exception: its class and [str(e)]. *)
Record exn : Type := Exn { exn_class_of : exn_class; exn_str : string }.

Definition string_of_nat (n : nat) : string :=
  NilEmpty.string_of_uint (Nat.to_uint n).

(* ===================================================================== *)
(** * The process state: file system, working directory, connection *)
(* ===================================================================== *)

(** A directory tree.  A directory lists its entries in enumeration
    order; an entry is a file or a directory. *)
Inductive node : Type :=
| File (body : string)
| Dir (entries : list (string * node)).

(** The node at an absolute position, given as the names from the root. *)
Fixpoint lookup (n : node) (p : list string) : option node :=
  match p with
  | [] => Some n
  | c :: p' =>
      match n with
      | File _ => None
      | Dir es =>
          match assoc c es with
          | Some n' => lookup n' p'
          | None => None
          end
      end
  end.

(** Put a file with the given body at a position: an existing file gets
    a new body, a missing last name is created in its directory.  [None]
    when the position is a directory or its parent is not one. *)
Fixpoint store (n : node) (p : list string) (body : string) : option node :=
  match p with
  | [] =>
      match n with
      | File _ => Some (File body)
      | Dir _ => None
      end
  | c :: p' =>
      match n with
      | File _ => None
      | Dir es =>
          match assoc c es with
          | Some n' =>
              match store n' p' body with
              | Some n'' => Some (Dir (assoc_set c n'' es))
              | None => None
              end
          | None =>
              match p' with
              | [] => Some (Dir (assoc_set c (File body) es))
              | _ :: _ => None
              end
          end
      end
  end.

(** Where following a path ends. *)
Inductive walked : Type :=
| At (p : list string)
| NoEnt
| NotDir.

(** Path resolution, one component at a time from position [cur]: each
    component is looked up in a directory that must exist; an empty
    component and [.] stay, [..] goes up (the root is its own parent), a
    name goes down.  The last name need not exist. *)
Fixpoint walk (root : node) (cur : list string) (comps : list string) : walked :=
  match comps with
  | [] => At cur
  | c :: cs =>
      match lookup root cur with
      | Some (Dir _) =>
          if String.eqb c "" || String.eqb c "." then walk root cur cs
          else if String.eqb c ".." then walk root (removelast cur) cs
          else walk root (cur ++ [c]) cs
      | Some (File _) => NotDir
      | None => NoEnt
      end
  end.

(** The state a method runs in. *)
Record world : Type := World {
  fs : node;                (* the file system, from its root *)
  cwd : list string;        (* the working directory of the process *)
  sent : list pyval         (* what [websocket.send] has sent, oldest first *)
}.

Definition with_fs (w : world) (n : node) : world :=
  {| fs := n; cwd := cwd w; sent := sent w |}.

Definition with_cwd (w : world) (p : list string) : world :=
  {| fs := fs w; cwd := p; sent := sent w |}.

Definition with_sent (w : world) (v : pyval) : world :=
  {| fs := fs w; cwd := cwd w; sent := sent w ++ [v] |}.

(** A path string is resolved from the root when it starts with a slash,
    from the working directory otherwise; the empty path names nothing. *)
Definition resolve (w : world) (path : string) : walked :=
  if String.eqb path "" then NoEnt
  else walk (fs w) (if Str.startswith path "/" then [] else cwd w)
            (Str.split_slash path).

(** The text of an absolute position. *)
Definition render (p : list string) : string := "/" ++ Str.join "/" p.

(* ===================================================================== *)
(** * The monad of methods: state and exceptions *)
(* ===================================================================== *)

Inductive outcome (A : Type) : Type :=
| Return (a : A) (w : world)
| Raise (e : exn) (w : world).
Arguments Return {A} a w.
Arguments Raise {A} e w.

Definition M (A : Type) : Type := world -> outcome A.

Definition ret {A : Type} (a : A) : M A := fun w => Return a w.

Definition raise {A : Type} (e : exn) : M A := fun w => Raise e w.

Definition bind {A B : Type} (c : M A) (k : A -> M B) : M B :=
  fun w =>
    match c w with
    | Return a w' => k a w'
    | Raise e w' => Raise e w'
    end.

(** [try: body except Exception as e: handler]. *)
Definition try_except {A : Type} (body : M A) (handler : exn -> M A) : M A :=
  fun w =>
    match body w with
    | Return a w' => Return a w'
    | Raise e w' => handler e w'
    end.

Declare Scope py_scope.
Delimit Scope py_scope with py.
Notation "x <- c ;; k" := (bind c (fun x => k))
  (at level 61, c at next level, right associativity) : py_scope.
Notation "c ;;; k" := (bind c (fun _ => k))
  (at level 61, right associativity) : py_scope.
Local Open Scope py_scope.

Definition final {A : Type} (o : outcome A) : world :=
  match o with
  | Return _ w => w
  | Raise _ w => w
  end.

(* ===================================================================== *)
(** * The operating-system calls the code makes *)
(* ===================================================================== *)

Definition enoent (path : string) : exn :=
  Exn FileNotFoundError ("[Errno 2] No such file or directory: '" ++ path ++ "'").

Definition enotdir (path : string) : exn :=
  Exn NotADirectoryError ("[Errno 20] Not a directory: '" ++ path ++ "'").

Definition eisdir (path : string) : exn :=
  Exn IsADirectoryError ("[Errno 21] Is a directory: '" ++ path ++ "'").

(** [os.path.exists(path)]: something, file or directory, is there; any
    error in getting to it counts as absence. *)
Definition os_path_exists (path : string) (w : world) : bool :=
  match resolve w path with
  | At p => match lookup (fs w) p with Some _ => true | None => false end
  | NoEnt | NotDir => false
  end.

(** [os.listdir(path)]: the names in a directory, in enumeration order. *)
Definition os_listdir (path : string) : M (list string) :=
  fun w =>
    match resolve w path with
    | At p =>
        match lookup (fs w) p with
        | Some (Dir es) => Return (map fst es) w
        | Some (File _) => Raise (enotdir path) w
        | None => Raise (enoent path) w
        end
    | NoEnt => Raise (enoent path) w
    | NotDir => Raise (enotdir path) w
    end.

(** [os.getcwd()]. *)
Definition os_getcwd : M string :=
  fun w =>
    match lookup (fs w) (cwd w) with
    | Some (Dir _) => Return (render (cwd w)) w
    | _ => Raise (Exn FileNotFoundError "[Errno 2] No such file or directory") w
    end.

(** [os.chdir(path)]. *)
Definition os_chdir (path : string) : M unit :=
  fun w =>
    match resolve w path with
    | At p =>
        match lookup (fs w) p with
        | Some (Dir _) => Return tt (with_cwd w p)
        | Some (File _) => Raise (enotdir path) w
        | None => Raise (enoent path) w
        end
    | NoEnt => Raise (enoent path) w
    | NotDir => Raise (enotdir path) w
    end.

(** [open(path, 'w')]: the file is created, or emptied when it exists.
    The handle is the position of the file. *)
Definition open_w (path : string) : M (list string) :=
  fun w =>
    match resolve w path with
    | At p =>
        match store (fs w) p "" with
        | Some n => Return p (with_fs w n)
        | None =>
            match lookup (fs w) p with
            | Some (Dir _) => Raise (eisdir path) w
            | _ => Raise (enoent path) w
            end
        end
    | NoEnt => Raise (enoent path) w
    | NotDir => Raise (enotdir path) w
    end.

(** How the error for a wrong argument names what it got: the name of
    its type, and [None] for [None]. *)
Definition arg_name (v : pyval) : string :=
  match v with
  | PNone => "None"
  | _ => type_name v
  end.

(** [f.write(content)] on a handle of [open_w], then the close at the end
    of the [with] block: only a [str] can be written. *)
Definition file_write (f : list string) (content : pyval) : M unit :=
  match content with
  | PStr s =>
      fun w =>
        match store (fs w) f s with
        | Some n => Return tt (with_fs w n)
        | None => Raise (Exn ValueError "I/O operation on closed file.") w
        end
  | _ => raise (Exn TypeError
                  ("write() argument must be str, not " ++ arg_name content))
  end.

(** The content of a file as it is stored: what a caller reads back
    with no newline translation ([open(path, 'rb').read()], decoded). *)
Definition read_text (path : string) : M string :=
  fun w =>
    match resolve w path with
    | At p =>
        match lookup (fs w) p with
        | Some (File body) => Return body w
        | Some (Dir _) => Raise (eisdir path) w
        | None => Raise (enoent path) w
        end
    | NoEnt => Raise (enoent path) w
    | NotDir => Raise (enotdir path) w
    end.

(** The strings of a list of values, or the first item that is not a
    [str] with its index. *)
Fixpoint strs_of (l : list pyval) (i : nat) : (nat * pyval) + list string :=
  match l with
  | [] => inr []
  | PStr s :: l' =>
      match strs_of l' (S i) with
      | inr ss => inr (s :: ss)
      | inl bad => inl bad
      end
  | v :: _ => inl (i, v)
  end.

(** [sep.join(v)]: [v] must be iterable and yield only [str]s; a [str]
    yields its characters, a [dict] its keys. *)
Definition py_join (sep : string) (v : pyval) : M string :=
  match v with
  | PStr s => ret (Str.join sep (Str.chars s))
  | PList l =>
      match strs_of l 0 with
      | inr ss => ret (Str.join sep ss)
      | inl (i, x) =>
          raise (Exn TypeError
                   ("sequence item " ++ string_of_nat i
                    ++ ": expected str instance, " ++ type_name x ++ " found"))
      end
  | PDict d => ret (Str.join sep (map fst d))
  | _ => raise (Exn TypeError "can only join an iterable")
  end.

(** [d.get(key, default)]: only a [dict] has [get]. *)
Definition py_get (d : pyval) (key : string) (default : pyval) : M pyval :=
  match d with
  | PDict items =>
      ret (match assoc key items with Some v => v | None => default end)
  | _ => raise (Exn AttributeError
                  ("'" ++ type_name d ++ "' object has no attribute 'get'"))
  end.

(** What starting the child process comes to.  It ran to its end,
    leaving the file system as [fs'], and its output is text; or it ran to
    its end and its output cannot be decoded as text, so that
    [subprocess.run] raises ([UnicodeDecodeError]) after the run; or it
    could not be started. *)
Inductive spawned : Type :=
| Completed (returncode : Z) (stdout stderr : string) (fs' : node)
| Undecodable (e : exn) (fs' : node)
| SpawnError (e : exn).

(** The [CompletedProcess] of [subprocess.run]. *)
Record CompletedProcess : Type := {
  returncode : Z;
  stdout : string;
  stderr : string
}.

(** The external world of child processes: given the argument vector and
    the file system and working directory the child starts in. *)
Definition spawner : Type := list string -> node -> list string -> spawned.

(** [subprocess.run(cmd, capture_output=True, text=True)]. *)
Definition subprocess_run (spawn : spawner) (cmd : list pyval)
  : M CompletedProcess :=
  fun w =>
    match strs_of cmd 0 with
    | inr argv =>
        match spawn argv (fs w) (cwd w) with
        | Completed rc out err n =>
            Return {| returncode := rc; stdout := out; stderr := err |}
                   (with_fs w n)
        | Undecodable e n => Raise e (with_fs w n)
        | SpawnError e => Raise e w
        end
    | inl (_, v) =>
        Raise (Exn TypeError
                 ("expected str, bytes or os.PathLike object, not "
                  ++ type_name v)) w
    end.

(* ===================================================================== *)
(** * [cypress_mcp_connector.py] *)
(* ===================================================================== *)

Definition pydict : Type := list (string * pyval).

Module CypressMCPConnector.

(** The object: [self.project_path] (the logger plays no part). *)
Record t : Type := { project_path : string }.

Definition required_dirs : list string :=
  ["cypress"; "cypress/e2e"; "cypress/fixtures"].

(** The [for dir_path in required_dirs] loop of
    [validate_project_structure]. *)
Fixpoint validate_dirs (self : t) (dirs : list string) : M unit :=
  match dirs with
  | [] => ret tt
  | dir_path :: dirs' =>
      let full_path := os_path_join (project_path self) [dir_path] in
      fun w =>
        if os_path_exists full_path w
        then validate_dirs self dirs' w
        else Raise (Exn ValueError
                      ("Missing required directory: " ++ full_path)) w
  end.

Definition validate_project_structure (self : t) : M unit :=
  validate_dirs self required_dirs.

(** [__init__]: the object exists only if validation returns. *)
Definition init (project_path : string) : M t :=
  let self := {| project_path := project_path |} in
  validate_project_structure self ;;;
  ret self.

(** The two spec dialects. *)
Definition recognized (f : string) : bool :=
  Str.endswith f ".cy.js" || Str.endswith f ".cy.ts".

Definition list_available_tests (self : t) : M (list string) :=
  let integration_path := os_path_join (project_path self) ["cypress"; "e2e"] in
  names <- os_listdir integration_path ;;
  ret (map (fun f => os_path_join "cypress" ["e2e"; f])
           (filter recognized names)).

(** The result of the [except] branch of both methods. *)
Definition failure (e : exn) : pydict :=
  [("success", PBool false); ("error", PStr (exn_str e))].

(** Lines 59-68 of [run_cypress_tests]: the command to run. *)
Definition cypress_cmd (self : t) (test_specs browser : pyval)
  : M (list pyval) :=
  test_specs <- (if negb (truthy test_specs)
                 then tests <- list_available_tests self ;;
                      ret (PList (map PStr tests))
                 else ret test_specs) ;;
  spec <- py_join "," test_specs ;;
  ret [PStr "npx"; PStr "cypress"; PStr "run";
       PStr "--browser"; browser;
       PStr "--spec"; PStr spec].

Section WithChildProcesses.

Variable spawn : spawner.

Definition run_cypress_tests (self : t) (test_specs browser : pyval)
  : M pydict :=
  cmd <- cypress_cmd self test_specs browser ;;
  try_except
    (original_dir <- os_getcwd ;;
     os_chdir (project_path self) ;;;
     result <- subprocess_run spawn cmd ;;
     os_chdir original_dir ;;;
     ret [("success", PBool (Z.eqb (returncode result) 0));
          ("stdout", PStr (stdout result));
          ("stderr", PStr (stderr result));
          ("return_code", PInt (returncode result))])
    (fun e => ret (failure e)).

End WithChildProcesses.

(** Lines 108-109 of [create_test_file]: the name the file gets. *)
Definition spec_filename (filename : string) : string :=
  if negb (Str.endswith filename ".cy.js") && negb (Str.endswith filename ".cy.ts")
  then filename ++ ".cy.js"
  else filename.

Definition create_test_file (self : t) (filename content : pyval) : M pydict :=
  filename <- match filename with
              | PStr s => ret (spec_filename s)
              | _ => raise (Exn AttributeError
                              ("'" ++ type_name filename
                               ++ "' object has no attribute 'endswith'"))
              end ;;
  let file_path :=
    os_path_join (project_path self) ["cypress"; "integration"; filename] in
  try_except
    (f <- open_w file_path ;;
     file_write f content ;;;
     ret [("success", PBool true); ("file_path", PStr file_path)])
    (fun e => ret (failure e)).

End CypressMCPConnector.

(* ===================================================================== *)
(** * [mcp_websocket_server.py] *)
(* ===================================================================== *)

Module CypressMCPServer.

Import CypressMCPConnector.

(** A message of the connection, as [json.loads] sees it: text that
    decodes to a value, or text on which [json.loads] raises. *)
Inductive frame : Type :=
| Text (decoded : pyval)
| Garbage (err : string).

Definition json_loads (message : frame) : M pyval :=
  match message with
  | Text v => ret v
  | Garbage err => raise (Exn JSONDecodeError err)
  end.

(** [await websocket.send(json.dumps(v))]. *)
Definition websocket_send (v : pyval) : M unit :=
  fun w => Return tt (with_sent w v).

Definition error_envelope (e : exn) : pyval :=
  PDict [("type", PStr "error"); ("message", PStr (exn_str e))].

Section WithChildProcesses.

Variable spawn : spawner.

(** Lines 30-57 of [handle_message]: from the decoded message to the
    [response] dict. *)
Definition respond (self : t) (msg_data : pyval) : M pydict :=
  type <- py_get msg_data "type" PNone ;;
  if eq_str type "list_tests" then
    tests <- list_available_tests self ;;
    ret [("type", PStr "test_list"); ("tests", PList (map PStr tests))]
  else if eq_str type "run_tests" then
    test_specs <- py_get msg_data "specs" PNone ;;
    browser <- py_get msg_data "browser" (PStr "chrome") ;;
    result <- run_cypress_tests spawn self test_specs browser ;;
    ret (dict_merge [("type", PStr "test_results")] result)
  else if eq_str type "create_test" then
    filename <- py_get msg_data "filename" PNone ;;
    content <- py_get msg_data "content" PNone ;;
    result <- create_test_file self filename content ;;
    ret (dict_merge [("type", PStr "test_creation")] result)
  else ret [].

(** The body of the [async for] loop: one message. *)
Definition handle_one (self : t) (message : frame) : M unit :=
  try_except
    (msg_data <- json_loads message ;;
     response <- respond self msg_data ;;
     websocket_send (PDict response))
    (fun e => websocket_send (error_envelope e)).

(** [handle_message] on the messages of one connection, in arrival order. *)
Fixpoint handle_message (self : t) (incoming : list frame) : M unit :=
  match incoming with
  | [] => ret tt
  | message :: rest => handle_one self message ;;; handle_message self rest
  end.

End WithChildProcesses.

End CypressMCPServer.

(* ===================================================================== *)
(** * More of Python's [str] *)
(* ===================================================================== *)

(** The line feed, and text given line by line. *)
Definition nl : string := String "010"%char EmptyString.

Definition lines (l : list string) : string := String.concat nl l.

(** The character is a slash somewhere in the string. *)
Fixpoint has_slash (s : string) : bool :=
  match s with
  | EmptyString => false
  | String c s' => Ascii.eqb c "/" || has_slash s'
  end.

Definition in_range (lo hi : N) (c : ascii) : bool :=
  (N.leb lo (N_of_ascii c) && N.leb (N_of_ascii c) hi)%bool.

(** The string holds ASCII characters only. *)
Fixpoint is_ascii (s : string) : bool :=
  match s with
  | EmptyString => true
  | String c s' => N.ltb (N_of_ascii c) 128 && is_ascii s'
  end.

(** [s.lower()], exact on ASCII text: [A-Z] go to [a-z], every other
    character stays. *)
Definition lower_char (c : ascii) : ascii :=
  if in_range 65 90 c then ascii_of_N (N_of_ascii c + 32) else c.

Fixpoint str_lower (s : string) : string :=
  match s with
  | EmptyString => EmptyString
  | String c s' => String (lower_char c) (str_lower s')
  end.

(** [\w], exact on ASCII text: letters, digits and the underscore.  (A
    character beyond ASCII is kept as a word character.) *)
Definition is_word (c : ascii) : bool :=
  in_range 97 122 c || in_range 65 90 c || in_range 48 57 c
  || Ascii.eqb c "_" || N.leb 128 (N_of_ascii c).

(** [re.sub(r"\W+", "_", s)]: each maximal run of non-word characters
    becomes one underscore.  [in_run] tells that the run has begun. *)
Fixpoint sub_nonword (in_run : bool) (s : string) : string :=
  match s with
  | EmptyString => EmptyString
  | String c s' =>
      if is_word c then String c (sub_nonword false s')
      else if in_run then sub_nonword true s'
      else String "_" (sub_nonword true s')
  end.

Definition re_sub_nonword (s : string) : string := sub_nonword false s.

(** Every character of the string passes the test. *)
Fixpoint all_chars (ok : ascii -> bool) (s : string) : bool :=
  match s with
  | EmptyString => true
  | String c s' => ok c && all_chars ok s'
  end.

(** A lowercase letter, a digit or the underscore. *)
Definition slug_char (c : ascii) : bool :=
  in_range 97 122 c || in_range 48 57 c || Ascii.eqb c "_".

(** A name a directory entry can have, as path resolution sees it. *)
Definition plain_name (c : string) : bool :=
  negb (has_slash c) && negb (String.eqb c "") && negb (String.eqb c ".")
  && negb (String.eqb c "..").

(* ===================================================================== *)
(** * [claude_mcp_connector.py] *)
(* ===================================================================== *)

Module ClaudeMCPConnector.

(** The object. *)
Record t : Type := {
  cypress_server_url : string;
  claude_api_key : pyval;
  test_generation_prompt : string
}.

(** [__init__], with its defaults ['ws://localhost:8765'] and [None] left
    to the caller. *)
Definition init (cypress_server_url : string) (claude_api_key : pyval) : t :=
  {| cypress_server_url := cypress_server_url;
     claude_api_key := claude_api_key;
     test_generation_prompt :=
       lines ["";
             "        Convert the following natural language description into a Cypress test script:";
             "        ";
             "        Description: {description}";
             "        ";
             "        Requirements:";
             "        - Use modern Cypress syntax";
             "        - Include appropriate assertions";
             "        - Handle potential async operations";
             "        - Add meaningful comments";
             "        ";
             "        Cypress Test Script:";
             "        "] |}.

(** The three fixed parts of the f-string of
    [generate_test_from_description]. *)
Definition script_head : string :=
  lines ["";
         "        describe('Generated Test: "].

Definition script_middle : string :=
  lines ["', () => {";
         "            it('should perform test based on description', () => {";
         "                // Automatically generated test";
         "                cy.log('Test description: "].

Definition script_tail : string :=
  lines ["')";
         "                ";
         "                // TODO: Implement specific test logic";
         "                cy.visit('/')  // Example base visit";
         "                ";
         "                // Placeholder assertion";
         "                cy.get('body').should('exist')";
         "            })";
         "        })";
         "        "].

Definition generate_test_from_description (self : t) (description : string)
  : string :=
  script_head ++ description ++ script_middle ++ description ++ script_tail.

(** The client's end of the connection: what it has sent, oldest first
    (each a dict given to [json.dumps]), and the texts the server delivers,
    in order. *)
Record conn : Type := { outbox : list pyval; inbox : list string }.

(** A coroutine on the connection returns, raises, or waits in
    [websocket.recv()] for a message that is not there. *)
Inductive answer (A : Type) : Type :=
| Done (a : A) (c : conn)
| Failed (e : exn) (c : conn)
| Waiting (c : conn).
Arguments Done {A} a c.
Arguments Failed {A} e c.
Arguments Waiting {A} c.

Definition Co (A : Type) : Type := conn -> answer A.

Definition co_ret {A : Type} (a : A) : Co A := fun c => Done a c.

Definition co_bind {A B : Type} (m : Co A) (k : A -> Co B) : Co B :=
  fun c =>
    match m c with
    | Done a c' => k a c'
    | Failed e c' => Failed e c'
    | Waiting c' => Waiting c'
    end.

(** [await websocket.send(json.dumps(v))]. *)
Definition ws_send (v : pyval) : Co unit :=
  fun c => Done tt {| outbox := outbox c ++ [v]; inbox := inbox c |}.

(** [await websocket.recv()]: the next text, a [str]. *)
Definition ws_recv : Co pyval :=
  fun c =>
    match inbox c with
    | [] => Waiting c
    | m :: rest => Done (PStr m) {| outbox := outbox c; inbox := rest |}
    end.

(** [d.get(key, default)] in a coroutine. *)
Definition co_get (d : pyval) (key : string) (default : pyval) : Co pyval :=
  fun c =>
    match d with
    | PDict items =>
        Done (match assoc key items with Some v => v | None => default end) c
    | _ => Failed (Exn AttributeError
                     ("'" ++ type_name d ++ "' object has no attribute 'get'")) c
    end.

(** The name [run_tests] asks the server to write. *)
Definition generated_filename (test_description : string) : string :=
  "generated_" ++ re_sub_nonword (str_lower test_description) ++ ".spec.js".

(** The first message of [run_tests]. *)
Definition create_request (self : t) (test_description : string) : pyval :=
  PDict [("type", PStr "create_test");
         ("filename", PStr (generated_filename test_description));
         ("content", PStr (generate_test_from_description self test_description))].

(** [run_tests], inside [async with websockets.connect(...)]. *)
Definition run_tests (self : t) (test_description : string) : Co pyval :=
  co_bind (ws_send (create_request self test_description)) (fun _ =>
  co_bind ws_recv (fun creation_response =>
  co_bind (co_get creation_response "file_path" (PStr "")) (fun file_path =>
  co_bind (ws_send (PDict [("type", PStr "run_tests");
                           ("specs", PList [file_path])])) (fun _ =>
  co_bind ws_recv (fun test_results =>
  co_ret test_results))))).

(** [analyze_test_results].  [py_str] is [str()], which the f-string
    applies to the value it prints; on a [str] it is the identity. *)
Definition analyze_test_results (py_str : pyval -> string) (test_results : pyval)
  : exn + string :=
  match test_results with
  | PDict items =>
      if truthy (match assoc "success" items with Some v => v | None => PNone end)
      then inr "✅ Test passed successfully! All assertions met."
      else inr (lines ["❌ Test failed."; "Error Details:";
                       py_str (match assoc "stderr" items with
                               | Some v => v
                               | None => PStr "Unknown error"
                               end)])
  | _ => inl (Exn AttributeError
                ("'" ++ type_name test_results
                 ++ "' object has no attribute 'get'"))
  end.

End ClaudeMCPConnector.

(* ===================================================================== *)
(** * A small machine to run the code on *)
(* ===================================================================== *)

Module Demo.

Import CypressMCPConnector CypressMCPServer.

(** A project as [validate_project_structure] wants it, with no
    [cypress/integration]. *)
Definition cypress_dir : node :=
  Dir [("e2e", Dir [("login.cy.js", File "it('logs in')");
                    ("notes.txt", File "todo");
                    ("cart.cy.ts", File "it('adds')");
                    ("helpers", Dir []);
                    ("suite.cy.js", Dir [])]);
       ("fixtures", Dir [])].

(** The same project with the directory [create_test_file] writes to. *)
Definition cypress_dir_full : node :=
  Dir [("e2e", Dir [("login.cy.js", File "it('logs in')")]);
       ("fixtures", Dir []);
       ("integration", Dir [("old.cy.js", File "stale")])].

Definition disk : node :=
  Dir [("home", Dir [("user", Dir [])]);
       ("proj", Dir [("cypress", cypress_dir)]);
       ("full", Dir [("cypress", cypress_dir_full)]);
       ("bare", Dir [("cypress", Dir [("e2e", Dir [])])]);
       ("tmp", Dir [])].

(** The process starts in [/home/user] with nothing sent yet. *)
Definition w0 : world := {| fs := disk; cwd := ["home"; "user"]; sent := [] |}.

Definition proj : t := {| project_path := "/proj" |}.
Definition full : t := {| project_path := "/full" |}.

(** No [npx] on the machine: [subprocess.run] raises. *)
Definition npx_missing : spawner :=
  fun _ _ _ =>
    SpawnError (Exn FileNotFoundError "[Errno 2] No such file or directory: 'npx'").

(** A run that passes and leaves the disk alone. *)
Definition npx_passes : spawner :=
  fun _ n _ => Completed 0 "All specs passed!" "" n.

(** A run that ends, with output that is not text. *)
Definition npx_garbles : spawner :=
  fun _ n _ =>
    Undecodable
      (Exn UnicodeDecodeError
         "'utf-8' codec can't decode byte 0xff in position 0: invalid start byte")
      n.



(** [str()] on the values whose text is simple; enough for a [str]. *)
Definition py_str (v : pyval) : string :=
  match v with
  | PStr s => s
  | PNone => "None"
  | PBool true => "True"
  | PBool false => "False"
  | _ => "..."
  end.

(** The client, and a connection on which the server answers once. *)
Definition me : ClaudeMCPConnector.t :=
  ClaudeMCPConnector.init "ws://localhost:8765" PNone.

Definition one_reply : ClaudeMCPConnector.conn :=
  {| ClaudeMCPConnector.outbox := [];
     ClaudeMCPConnector.inbox := ["{}"] |}.

End Demo.

(* ===================================================================== *)
(** * Facts about strings and paths *)
(* ===================================================================== *)

Local Open Scope py_scope.

Lemma append_assoc (a b c : string) : (a ++ b) ++ c = a ++ (b ++ c).
Proof. induction a as [|x a IH]; simpl; [reflexivity | now rewrite IH]. Qed.

Lemma endswith_cons (x : ascii) (s suf : string) :
  Str.endswith (String x s) suf =
  if String.eqb (String x s) suf then true else Str.endswith s suf.
Proof. reflexivity. Qed.

Lemma endswith_refl (s : string) : Str.endswith s s = true.
Proof. destruct s; [reflexivity | now rewrite endswith_cons, String.eqb_refl]. Qed.

Lemma endswith_app (p suf : string) : Str.endswith (p ++ suf) suf = true.
Proof.
  induction p as [|x p IH].
  - apply endswith_refl.
  - change (String x p ++ suf) with (String x (p ++ suf)).
    rewrite endswith_cons, IH. now destruct (String.eqb _ suf).
Qed.

Lemma endswith_inv (s suf : string) :
  Str.endswith s suf = true -> exists p, s = p ++ suf.
Proof.
  induction s as [|x s IH].
  - destruct suf; simpl; [exists ""; reflexivity | discriminate].
  - rewrite endswith_cons. destruct (String.eqb (String x s) suf) eqn:E.
    + apply String.eqb_eq in E. exists "". now rewrite <- E.
    + intros H. destruct (IH H) as [p ->]. now exists (String x p).
Qed.

(** [endswith] is the suffix relation. *)
Lemma endswith_iff (s suf : string) :
  Str.endswith s suf = true <-> exists p, s = p ++ suf.
Proof.
  split; [apply endswith_inv | intros [p ->]; apply endswith_app].
Qed.

Lemma split_slash_nonempty (s : string) : Str.split_slash s <> [].
Proof.
  induction s as [|c s IH]; simpl; [discriminate|].
  destruct (Ascii.eqb c "/"); [discriminate|].
  destruct (Str.split_slash s); discriminate.
Qed.

Lemma split_slash_app (a b : string) :
  Str.split_slash (a ++ "/" ++ b) = (Str.split_slash a ++ Str.split_slash b)%list.
Proof.
  induction a as [|c a IH]; simpl; [reflexivity|].
  destruct (Ascii.eqb c "/").
  - simpl in IH. now rewrite IH.
  - simpl in IH. rewrite IH.
    destruct (Str.split_slash a) eqn:E; [now apply split_slash_nonempty in E|].
    reflexivity.
Qed.

(** Whatever came before, the joined path ends with the last component. *)
Lemma join_step_endswith (path b : string) :
  Str.endswith (join_step path b) b = true.
Proof.
  unfold join_step.
  destruct (Str.startswith b "/"); [apply endswith_refl|].
  destruct (_ || _); [apply endswith_app|].
  rewrite <- append_assoc. apply endswith_app.
Qed.

Lemma os_path_join_snoc (a : string) (p : list string) (b : string) :
  os_path_join a (p ++ [b])%list = join_step (os_path_join a p) b.
Proof. unfold os_path_join. now rewrite fold_left_app. Qed.

Lemma endswith_slash_app (x y : string) :
  y <> "" -> Str.endswith (x ++ y) "/" = Str.endswith y "/".
Proof.
  intros Hy. induction x as [|c x IH]; [reflexivity|].
  change (String c x ++ y) with (String c (x ++ y)).
  rewrite endswith_cons, IH.
  destruct (String.eqb_spec (String c (x ++ y)) "/") as [E|_]; [|reflexivity].
  injection E as _ E. destruct x; simpl in E; [contradiction | discriminate].
Qed.

Lemma startswith_app (x y : string) :
  x <> "" -> Str.startswith (x ++ y) "/" = Str.startswith x "/".
Proof.
  intros Hx. destruct x as [|c x]; [contradiction|].
  reflexivity.
Qed.

Lemma append_eq_nil (x y : string) : x ++ y = "" -> y = "".
Proof. destruct x; simpl; [auto | discriminate]. Qed.

(** A relative component is appended after exactly one slash, unless the
    path before it is empty or ends with one. *)
Lemma join_step_relative (path b : string) :
  Str.startswith b "/" = false ->
  join_step path b =
  if String.eqb path "" || Str.endswith path "/" then path ++ b
  else path ++ "/" ++ b.
Proof. intros H. unfold join_step. now rewrite H. Qed.

(** After a relative, non-empty last component that does not end with a
    slash, one more relative component goes after a slash. *)
Lemma join_step_after (path a b : string) :
  Str.startswith a "/" = false -> a <> "" -> Str.endswith a "/" = false ->
  Str.startswith b "/" = false ->
  join_step (join_step path a) b = join_step path a ++ "/" ++ b.
Proof.
  intros Ha Hne Hs Hb. rewrite (join_step_relative _ b Hb).
  rewrite (join_step_relative _ a Ha).
  assert (E : forall x, String.eqb (x ++ a) "" = false).
  { intros x. apply String.eqb_neq. intros E. now apply append_eq_nil in E. }
  assert (F : forall x, Str.endswith (x ++ a) "/" = false).
  { intros x. now rewrite endswith_slash_app. }
  destruct (String.eqb path "" || Str.endswith path "/").
  - now rewrite E, F.
  - rewrite <- (append_assoc path "/" a). now rewrite E, F.
Qed.

(* ===================================================================== *)
(** * Facts about the directory tree *)
(* ===================================================================== *)

Section Assoc.

Context {A : Type}.

Lemma assoc_set_same (k : string) (v : A) (l : list (string * A)) :
  assoc k (assoc_set k v l) = Some v.
Proof.
  induction l as [|[k' v'] l IH]; simpl.
  - now rewrite String.eqb_refl.
  - destruct (String.eqb k k') eqn:E; simpl; rewrite ?String.eqb_refl, ?E; auto.
Qed.

Lemma assoc_set_other (k k' : string) (v : A) (l : list (string * A)) :
  k' <> k -> assoc k' (assoc_set k v l) = assoc k' l.
Proof.
  intros Hne. induction l as [|[k0 v0] l IH]; simpl.
  - now apply String.eqb_neq in Hne as ->.
  - destruct (String.eqb_spec k k0) as [->|N]; simpl.
    + now apply String.eqb_neq in Hne as ->.
    + now rewrite IH.
Qed.

End Assoc.

(** After [store], the file is there with the body stored. *)
Lemma store_lookup (p : list string) :
  forall (n n' : node) (body : string),
    store n p body = Some n' -> lookup n' p = Some (File body).
Proof.
  induction p as [|c p IH]; intros n n' body H.
  - destruct n; simpl in H; [|discriminate]. now injection H as <-.
  - destruct n as [|es]; simpl in H; [discriminate|].
    destruct (assoc c es) as [n1|] eqn:E.
    + destruct (store n1 p body) as [n1'|] eqn:S; [|discriminate].
      injection H as <-. simpl. rewrite assoc_set_same. eauto.
    + destruct p; [|discriminate]. injection H as <-.
      simpl. now rewrite assoc_set_same.
Qed.

(** [store] makes no directory disappear. *)
Lemma store_keeps_dirs (p : list string) :
  forall (n n' : node) (body : string) (q : list string) (es : list (string * node)),
    store n p body = Some n' ->
    lookup n q = Some (Dir es) ->
    exists es', lookup n' q = Some (Dir es').
Proof.
  induction p as [|c p IH]; intros n n' body q es H L.
  - destruct n; simpl in H; [|discriminate].
    destruct q; simpl in L; discriminate.
  - destruct n as [|ents]; simpl in H; [discriminate|].
    destruct q as [|c' q]; [destruct (assoc c ents) as [n1|];
      [destruct (store n1 p body); [|discriminate] | destruct p; [|discriminate]];
      injection H as <-; simpl; eauto|].
    simpl in L.
    destruct (String.eqb_spec c' c) as [->|N].
    + destruct (assoc c ents) as [n1|] eqn:E; [|discriminate].
      destruct (store n1 p body) as [n1'|] eqn:S; [|discriminate].
      injection H as <-. simpl. rewrite assoc_set_same. eauto.
    + assert (exists ents', n' = Dir (assoc_set c ents' ents)) as [x ->].
      { destruct (assoc c ents) as [n1|];
          [destruct (store n1 p body); [|discriminate] | destruct p; [|discriminate]];
          injection H as <-; eauto. }
      simpl. rewrite assoc_set_other by assumption. eauto.
Qed.

(** A path that resolved keeps resolving to the same place when no
    directory disappears. *)
Lemma walk_stable (root root' : node) (comps : list string) :
  (forall q es, lookup root q = Some (Dir es) ->
                exists es', lookup root' q = Some (Dir es')) ->
  forall cur p, walk root cur comps = At p -> walk root' cur comps = At p.
Proof.
  intros K. induction comps as [|c cs IH]; intros cur p H; simpl in *; [assumption|].
  destruct (lookup root cur) as [[|es]|] eqn:L; try discriminate.
  destruct (K _ _ L) as [es' ->].
  destruct (String.eqb c "" || String.eqb c "."); [auto|].
  destruct (String.eqb c ".."); auto.
Qed.

(** Resolution goes through a prefix of the components first. *)
Lemma walk_app (root : node) (a b : list string) :
  forall cur,
    walk root cur (a ++ b) =
    match walk root cur a with
    | At p => walk root p b
    | NoEnt => NoEnt
    | NotDir => NotDir
    end.
Proof.
  induction a as [|c a IH]; intros cur; simpl; [reflexivity|].
  destruct (lookup root cur) as [[|es]|]; try reflexivity.
  destruct (String.eqb c "" || String.eqb c "."); [apply IH|].
  destruct (String.eqb c ".."); apply IH.
Qed.

Lemma assoc_set_set {A : Type} (k : string) (v1 v2 : A) (l : list (string * A)) :
  assoc_set k v2 (assoc_set k v1 l) = assoc_set k v2 l.
Proof.
  induction l as [|[k' v'] l IH]; simpl.
  - now rewrite String.eqb_refl.
  - destruct (String.eqb k k') eqn:E; simpl.
    + now rewrite String.eqb_refl.
    + now rewrite E, IH.
Qed.

(** Storing twice at one place is storing the second body. *)
Lemma store_store (p : list string) :
  forall (n n1 : node) (b1 b2 : string),
    store n p b1 = Some n1 -> store n1 p b2 = store n p b2.
Proof.
  induction p as [|c p IH]; intros n n1 b1 b2 H.
  - destruct n; simpl in H; [|discriminate]. now injection H as <-.
  - destruct n as [|es]; simpl in H; [discriminate|].
    destruct (assoc c es) as [m|] eqn:E.
    + destruct (store m p b1) as [m1|] eqn:S; [|discriminate].
      injection H as <-. simpl. rewrite assoc_set_same, E.
      rewrite (IH m m1 b1 b2 S).
      destruct (store m p b2); [now rewrite assoc_set_set | reflexivity].
    + destruct p; [|discriminate]. injection H as <-.
      simpl. rewrite assoc_set_same, E. simpl. now rewrite assoc_set_set.
Qed.

(** What lies on the way to a node is a directory. *)
Lemma lookup_prefix_dir (a : list string) (c : string) (b : list string) :
  forall (n m : node),
    lookup n (a ++ c :: b) = Some m -> exists es, lookup n a = Some (Dir es).
Proof.
  induction a as [|x a IH]; intros n m H; simpl in *.
  - destruct n as [|es]; [discriminate | eauto].
  - destruct n as [|es]; [discriminate|].
    destruct (assoc x es) as [n1|]; [eauto | discriminate].
Qed.




(* ===================================================================== *)
(** * The connector *)
(* ===================================================================== *)

Import CypressMCPConnector CypressMCPServer.

(** ** Construction *)

Lemma validate_dirs_present (self : t) (dirs : list string) (w : world) :
  (forall d, In d dirs ->
             os_path_exists (os_path_join (project_path self) [d]) w = true) ->
  validate_dirs self dirs w = Return tt w.
Proof.
  induction dirs as [|d dirs IH]; intros H; cbn [validate_dirs]; [reflexivity|].
  rewrite (H d) by (left; reflexivity).
  apply IH. intros d' Hd'. apply H. now right.
Qed.


Lemma init_present (root : string) (w : world) :
  (forall d, In d required_dirs ->
             os_path_exists (os_path_join root [d]) w = true) ->
  init root w = Return {| project_path := root |} w.
Proof.
  intros H. unfold init, bind, validate_project_structure.
  now rewrite (validate_dirs_present {| project_path := root |}).
Qed.




(** ** Listing *)

(** The path a listed entry is reported under. *)
Lemma entry_path (f : string) :
  os_path_join "cypress" ["e2e"; f] =
  if Str.startswith f "/" then f else "cypress/e2e/" ++ f.
Proof.
  unfold os_path_join. cbn [fold_left].
  change (join_step "cypress" "e2e") with "cypress/e2e".
  unfold join_step. now destruct (Str.startswith f "/").
Qed.

Lemma entry_path_inj (f g : string) :
  os_path_join "cypress" ["e2e"; f] = os_path_join "cypress" ["e2e"; g] -> f = g.
Proof.
  rewrite !entry_path.
  destruct (Str.startswith f "/") eqn:Ef, (Str.startswith g "/") eqn:Eg; intros H.
  - assumption.
  - subst f. discriminate.
  - subst g. discriminate.
  - now injection H.
Qed.

Lemma list_available_tests_run (self : t) (w : world) :
  list_available_tests self w =
  match os_listdir (os_path_join (project_path self) ["cypress"; "e2e"]) w with
  | Return names w' =>
      Return (map (fun f => os_path_join "cypress" ["e2e"; f])
                  (filter recognized names)) w'
  | Raise e w' => Raise e w'
  end.
Proof. reflexivity. Qed.

(** Listing only reads. *)
Lemma list_available_tests_reads (self : t) (w : world) (o : outcome (list string)) :
  list_available_tests self w = o -> final o = w.
Proof.
  intros <-. rewrite list_available_tests_run. unfold os_listdir.
  destruct (resolve w _); [|reflexivity..].
  destruct (lookup (fs w) p) as [[|es]|]; reflexivity.
Qed.

(** C3, as the code has it.  When [cypress/e2e] under the root is a
    directory with entries [es], the listing is, in enumeration order, the
    path of each entry whose name ends with [.cy.js] or [.cy.ts]: an entry
    is listed exactly when its name has one of the two suffixes.  Only the
    names are read: nothing below the directory is visited, and whether an
    entry is a file or a directory plays no part. *)
Theorem list_available_tests_exact
  (self : t) (w : world) (p : list string) (es : list (string * node)) :
  resolve w (os_path_join (project_path self) ["cypress"; "e2e"]) = At p ->
  lookup (fs w) p = Some (Dir es) ->
  let listed := map (fun f => os_path_join "cypress" ["e2e"; f])
                    (filter recognized (map fst es)) in
  list_available_tests self w = Return listed w
  /\ (forall name, In name (map fst es) ->
        (In (os_path_join "cypress" ["e2e"; name]) listed
         <-> (Str.endswith name ".cy.js" = true \/ Str.endswith name ".cy.ts" = true)))
  /\ (forall path, In path listed ->
        exists name, In name (map fst es) /\ recognized name = true
                     /\ path = os_path_join "cypress" ["e2e"; name]).
Proof.
  intros R L listed. split; [|split].
  - rewrite list_available_tests_run. unfold os_listdir. now rewrite R, L.
  - intros name Hin. unfold listed. rewrite in_map_iff. split.
    + intros (g & E & Hg). apply entry_path_inj in E. subst g.
      apply filter_In in Hg as [_ Hg]. now apply orb_true_iff in Hg.
    + intros H. exists name. split; [reflexivity|].
      apply filter_In. split; [assumption|]. now apply orb_true_iff.
  - intros path Hin. unfold listed in Hin. apply in_map_iff in Hin as (g & <- & Hg).
    apply filter_In in Hg as [Hg1 Hg2]. now exists g.
Qed.

Lemma list_available_tests_exact_witness :
  list_available_tests Demo.proj Demo.w0 =
  Return ["cypress/e2e/login.cy.js"; "cypress/e2e/cart.cy.ts";
          "cypress/e2e/suite.cy.js"] Demo.w0.
Proof.
  apply (list_available_tests_exact Demo.proj Demo.w0 ["proj"; "cypress"; "e2e"]
           [("login.cy.js", File "it('logs in')");
            ("notes.txt", File "todo");
            ("cart.cy.ts", File "it('adds')");
            ("helpers", Dir []);
            ("suite.cy.js", Dir [])]); reflexivity.
Defined.

(** C3, as stated, fails on subdirectories: one whose own name ends with
    a recognized suffix is listed like a file. *)
Lemma listing_includes_matching_subdirectory :
  exists listed,
    list_available_tests Demo.proj Demo.w0 = Return listed Demo.w0
    /\ lookup (fs Demo.w0) ["proj"; "cypress"; "e2e"; "suite.cy.js"] = Some (Dir [])
    /\ In "cypress/e2e/suite.cy.js" listed
    /\ ~ (forall name n,
            lookup (fs Demo.w0) ["proj"; "cypress"; "e2e"; name] = Some n ->
            In (os_path_join "cypress" ["e2e"; name]) listed ->
            exists body, n = File body).
Proof.
  exists ["cypress/e2e/login.cy.js"; "cypress/e2e/cart.cy.ts";
          "cypress/e2e/suite.cy.js"].
  split; [reflexivity|]. split; [reflexivity|]. split; [simpl; auto|].
  intros H. destruct (H "suite.cy.js" (Dir []) eq_refl) as [body E].
  - simpl. auto.
  - discriminate.
Qed.

(** ** Writing a spec file *)

Lemma spec_filename_cases (filename : string) :
  (recognized filename = false -> spec_filename filename = filename ++ ".cy.js")
  /\ (recognized filename = true -> spec_filename filename = filename).
Proof.
  unfold recognized, spec_filename.
  destruct (Str.endswith filename ".cy.js"), (Str.endswith filename ".cy.ts");
    simpl; split; intros H; discriminate || reflexivity.
Qed.

Lemma spec_filename_recognized (filename : string) :
  recognized (spec_filename filename) = true.
Proof.
  unfold spec_filename, recognized.
  destruct (Str.endswith filename ".cy.js") eqn:E1; simpl.
  - now rewrite E1.
  - destruct (Str.endswith filename ".cy.ts") eqn:E2; simpl.
    + now rewrite E1, E2.
    + now rewrite endswith_app.
Qed.

Lemma spec_filename_relative (filename : string) :
  Str.startswith filename "/" = false ->
  Str.startswith (spec_filename filename) "/" = false.
Proof.
  unfold spec_filename. intros H.
  destruct (negb _ && negb _); [|assumption].
  destruct filename; [reflexivity | assumption].
Qed.

(** The method, step by step, on a [str] file name. *)
Lemma create_test_file_run (self : t) (filename : string) (content : pyval) (w : world) :
  create_test_file self (PStr filename) content w =
  let file_path :=
    os_path_join (project_path self)
                 ["cypress"; "integration"; spec_filename filename] in
  match open_w file_path w with
  | Return f w1 =>
      match file_write f content w1 with
      | Return _ w2 =>
          Return [("success", PBool true); ("file_path", PStr file_path)] w2
      | Raise e w2 => Return (failure e) w2
      end
  | Raise e w1 => Return (failure e) w1
  end.
Proof.
  unfold create_test_file, try_except, bind, ret. cbv zeta.
  destruct (open_w _ w) as [f w1|e w1]; [|reflexivity].
  destruct (file_write f content w1); reflexivity.
Qed.

(** With a [str] file name the method always returns a result. *)
Lemma create_test_file_returns (self : t) (filename : string) (content : pyval)
      (w : world) :
  exists r w', create_test_file self (PStr filename) content w = Return r w'.
Proof.
  rewrite create_test_file_run. cbv zeta.
  destruct (open_w _ w) as [f w1|e w1]; [|eauto].
  destruct (file_write f content w1); eauto.
Qed.

Lemma open_w_inv (path : string) (w w1 : world) (f : list string) :
  open_w path w = Return f w1 ->
  resolve w path = At f /\
  exists n1, store (fs w) f "" = Some n1 /\ w1 = with_fs w n1.
Proof.
  unfold open_w. destruct (resolve w path) as [p| |]; try discriminate.
  destruct (store (fs w) p "") as [n1|] eqn:S.
  - intros H. injection H as <- <-. eauto.
  - destruct (lookup (fs w) p) as [[|]|]; discriminate.
Qed.

Lemma resolve_stable (w : world) (n' : node) (path : string) (f : list string) :
  (forall q es, lookup (fs w) q = Some (Dir es) ->
                exists es', lookup n' q = Some (Dir es')) ->
  resolve w path = At f -> resolve (with_fs w n') path = At f.
Proof.
  unfold resolve. intros K. destruct (String.eqb path ""); [discriminate|].
  simpl. now apply walk_stable.
Qed.

(** What was written is what is read back, whatever was there before. *)
Lemma write_then_read (path : string) (content : string) (w w1 w2 : world)
      (f : list string) :
  open_w path w = Return f w1 ->
  file_write f (PStr content) w1 = Return tt w2 ->
  read_text path w2 = Return content w2 /\ cwd w2 = cwd w.
Proof.
  intros O W. apply open_w_inv in O as (R & n1 & S1 & ->).
  unfold file_write in W. simpl in W.
  destruct (store n1 f content) as [n2|] eqn:S2; [|discriminate].
  injection W as <-. split; [|reflexivity].
  assert (R2 : resolve (with_fs (with_fs w n1) n2) path = At f).
  { apply resolve_stable.
    - intros q es. simpl. now apply (store_keeps_dirs f n1 n2 content).
    - apply resolve_stable; [|assumption].
      intros q es. now apply (store_keeps_dirs f (fs w) n1 ""). }
  unfold read_text. rewrite R2. simpl.
  now rewrite (store_lookup f n1 n2 content S2).
Qed.

Lemma create_test_file_success (self : t) (filename content : string)
      (w w' : world) (r : pydict) :
  create_test_file self (PStr filename) (PStr content) w = Return r w' ->
  assoc "success" r = Some (PBool true) ->
  let file_path :=
    os_path_join (project_path self)
                 ["cypress"; "integration"; spec_filename filename] in
  r = [("success", PBool true); ("file_path", PStr file_path)]
  /\ read_text file_path w' = Return content w'
  /\ cwd w' = cwd w.
Proof.
  rewrite create_test_file_run. cbv zeta.
  destruct (open_w _ w) as [f w1|e w1] eqn:O.
  - destruct (file_write f (PStr content) w1) as [[] w2|e w2] eqn:W.
    + intros H _. injection H as <- <-. split; [reflexivity|].
      eapply write_then_read; eassumption.
    + intros H S. injection H as <- <-. discriminate.
  - intros H S. injection H as <- <-. discriminate.
Qed.




(** The file was not there before the first of these writes, and held
    something else before the second. *)
Example create_then_read_before :
  read_text "/full/cypress/integration/fresh.cy.js" Demo.w0
    = Raise (enoent "/full/cypress/integration/fresh.cy.js") Demo.w0
  /\ read_text "/full/cypress/integration/old.cy.js" Demo.w0
     = Return "stale" Demo.w0.
Proof. split; reflexivity. Qed.

(** C8. A file name with neither suffix gets [.cy.js] appended
    ([foo] becomes [foo.cy.js]); a name that already ends with [.cy.js]
    or [.cy.ts] is kept as it is ([foo.cy.ts] stays [foo.cy.ts]).  On
    success the file is created under that name: the reported path is
    [cypress/integration/<name>] joined to the root, it ends with the
    name, and the file there holds the content. *)
Theorem write_spec_default_suffix
  (self : t) (filename content : string) (w w' : world) (r : pydict) :
  create_test_file self (PStr filename) (PStr content) w = Return r w' ->
  assoc "success" r = Some (PBool true) ->
  let name := if recognized filename then filename else filename ++ ".cy.js" in
  let file_path :=
    os_path_join (project_path self) ["cypress"; "integration"; name] in
  r = [("success", PBool true); ("file_path", PStr file_path)]
  /\ Str.endswith file_path name = true
  /\ read_text file_path w' = Return content w'.
Proof.
  intros H S name file_path.
  assert (E : name = spec_filename filename).
  { unfold name. destruct (spec_filename_cases filename) as [A B].
    destruct (recognized filename); symmetry; auto. }
  unfold file_path. rewrite E.
  destruct (create_test_file_success self filename content w w' r H S) as (R1 & R2 & _).
  split; [assumption|]. split; [|assumption].
  change ["cypress"; "integration"; spec_filename filename]
    with (["cypress"; "integration"] ++ [spec_filename filename])%list.
  rewrite os_path_join_snoc. apply join_step_endswith.
Qed.

Lemma write_spec_default_suffix_witness :
  (exists w',
     create_test_file Demo.full (PStr "foo") (PStr "X") Demo.w0 =
       Return [("success", PBool true);
               ("file_path", PStr "/full/cypress/integration/foo.cy.js")] w'
     /\ read_text "/full/cypress/integration/foo.cy.js" w' = Return "X" w')
  /\
  (exists w',
     create_test_file Demo.full (PStr "foo.cy.ts") (PStr "X") Demo.w0 =
       Return [("success", PBool true);
               ("file_path", PStr "/full/cypress/integration/foo.cy.ts")] w'
     /\ read_text "/full/cypress/integration/foo.cy.ts" w' = Return "X" w').
Proof.
  split.
  - exists (final (create_test_file Demo.full (PStr "foo") (PStr "X") Demo.w0)).
    split; [reflexivity|].
    apply (write_spec_default_suffix Demo.full "foo" "X" Demo.w0 _ _ eq_refl eq_refl).
  - exists (final (create_test_file Demo.full (PStr "foo.cy.ts") (PStr "X") Demo.w0)).
    split; [reflexivity|].
    apply (write_spec_default_suffix Demo.full "foo.cy.ts" "X" Demo.w0 _ _ eq_refl eq_refl).
Defined.

(** ** Writing without [cypress/integration] *)

(** Nothing resolves below a path at which nothing exists. *)
Lemma resolve_below_absent (w : world) (path x : string) :
  path <> "" ->
  os_path_exists path w = false ->
  resolve w (path ++ "/" ++ x) = NoEnt \/ resolve w (path ++ "/" ++ x) = NotDir.
Proof.
  intros Hne Hex. unfold os_path_exists, resolve in *.
  apply String.eqb_neq in Hne as Hne'. rewrite Hne' in Hex.
  assert (E : String.eqb (path ++ "/" ++ x) "" = false).
  { apply String.eqb_neq. intros E. destruct path; [contradiction | discriminate]. }
  rewrite E, (startswith_app path _ Hne), split_slash_app, walk_app.
  destruct (walk (fs w) _ (Str.split_slash path)) as [p| |]; auto.
  destruct (Str.split_slash x) as [|c cs] eqn:Sx; [now apply split_slash_nonempty in Sx|].
  simpl. destruct (lookup (fs w) p); [discriminate | auto].
Qed.

Lemma open_w_unresolved (path : string) (w : world) :
  resolve w path = NoEnt \/ resolve w path = NotDir ->
  exists e, open_w path w = Raise e w.
Proof. unfold open_w. intros [-> | ->]; eauto. Qed.

Lemma integration_path (root x : string) :
  Str.startswith x "/" = false ->
  os_path_join root ["cypress"; "integration"; x] =
  os_path_join root ["cypress"; "integration"] ++ "/" ++ x
  /\ os_path_join root ["cypress"; "integration"] <> "".
Proof.
  intros Hx. unfold os_path_join. cbn [fold_left]. split.
  - now apply join_step_after.
  - intros E.
    pose proof (join_step_endswith (join_step root "cypress") "integration") as H.
    rewrite E in H. discriminate.
Qed.

(** C10, as the code has it.  On a root where [cypress], [cypress/e2e] and
    [cypress/fixtures] are present and [cypress/integration] is not,
    construction succeeds, and [create_test_file] with a file name that
    does not start with a slash returns the failure result, without
    raising and without touching anything. *)
Theorem write_without_integration
  (root filename : string) (content : pyval) (w : world) :
  (forall d, In d required_dirs ->
             os_path_exists (os_path_join root [d]) w = true) ->
  os_path_exists (os_path_join root ["cypress"; "integration"]) w = false ->
  Str.startswith filename "/" = false ->
  init root w = Return {| project_path := root |} w
  /\ exists e,
       create_test_file {| project_path := root |} (PStr filename) content w =
       Return [("success", PBool false); ("error", PStr (exn_str e))] w.
Proof.
  intros Hdirs Hmiss Hrel. split.
  - now apply init_present.
  - rewrite create_test_file_run. cbv zeta. cbn [project_path].
    destruct (integration_path root (spec_filename filename)
                (spec_filename_relative _ Hrel)) as [-> Hne].
    pose proof (resolve_below_absent w _ (spec_filename filename) Hne Hmiss) as U.
    destruct (open_w_unresolved _ w U) as [e ->].
    now exists e.
Qed.

Lemma write_without_integration_witness :
  init "/proj" Demo.w0 = Return Demo.proj Demo.w0
  /\ exists e,
       create_test_file Demo.proj (PStr "login") (PStr "X") Demo.w0 =
       Return [("success", PBool false); ("error", PStr (exn_str e))] Demo.w0.
Proof.
  apply (write_without_integration "/proj" "login" (PStr "X") Demo.w0).
  - intros d [<-|[<-|[<-|[]]]]; reflexivity.
  - reflexivity.
  - reflexivity.
Defined.

(** An absolute file name makes [os.path.join] drop the root: on the same
    root, with no [cypress/integration], the write succeeds, elsewhere. *)
Lemma write_without_integration_absolute :
  init "/proj" Demo.w0 = Return Demo.proj Demo.w0
  /\ os_path_exists "/proj/cypress/integration" Demo.w0 = false
  /\ (exists w',
       create_test_file Demo.proj (PStr "/tmp/x") (PStr "X") Demo.w0 =
       Return [("success", PBool true); ("file_path", PStr "/tmp/x.cy.js")] w'
       /\ read_text "/tmp/x.cy.js" w' = Return "X" w')
  /\ ~ (exists e w',
         create_test_file Demo.proj (PStr "/tmp/x") (PStr "X") Demo.w0 =
         Return [("success", PBool false); ("error", PStr (exn_str e))] w').
Proof.
  split; [reflexivity|]. split; [reflexivity|]. split.
  - exists (final (create_test_file Demo.proj (PStr "/tmp/x") (PStr "X") Demo.w0)).
    split; reflexivity.
  - intros (e & w' & H). vm_compute in H. discriminate.
Qed.

(** ** Running the tests *)

Lemma strs_of_strings (l : list string) :
  forall i, strs_of (map PStr l) i = inr l.
Proof.
  induction l as [|s l IH]; intros i; simpl; [reflexivity | now rewrite IH].
Qed.

(** The command for an explicit, non-empty list of spec paths. *)
Lemma cypress_cmd_given (self : t) (s : string) (l : list string)
      (browser : pyval) (w : world) :
  cypress_cmd self (PList (map PStr (s :: l))) browser w =
  Return [PStr "npx"; PStr "cypress"; PStr "run"; PStr "--browser"; browser;
          PStr "--spec"; PStr (Str.join "," (s :: l))] w.
Proof.
  unfold cypress_cmd, bind, ret, py_join. cbn [map truthy negb].
  change (PStr s :: map PStr l) with (map PStr (s :: l)).
  now rewrite strs_of_strings.
Qed.

(** The command when the specs are empty or absent: the listing is used. *)
Lemma cypress_cmd_default (self : t) (test_specs browser : pyval)
      (w w' : world) (l : list string) :
  truthy test_specs = false ->
  list_available_tests self w = Return l w' ->
  cypress_cmd self test_specs browser w =
  Return [PStr "npx"; PStr "cypress"; PStr "run"; PStr "--browser"; browser;
          PStr "--spec"; PStr (Str.join "," l)] w.
Proof.
  intros T L.
  pose proof (list_available_tests_reads self w _ L) as E. simpl in E. subst w'.
  unfold cypress_cmd, bind, ret. rewrite T. cbn [negb]. rewrite L.
  unfold py_join. now rewrite strs_of_strings.
Qed.

(** C6. With specs that are empty or absent (any value Python takes as
    false), the command built is the one built for the list that
    [list_available_tests] returns at that moment: the same argument
    vector, whose [--spec] argument is that list joined by commas.  The
    whole run is then the same as well, whatever the child process does. *)
Theorem run_without_specs_uses_listing
  (self : t) (test_specs browser : pyval) (w w' : world) (l : list string) :
  truthy test_specs = false ->
  list_available_tests self w = Return l w' ->
  cypress_cmd self test_specs browser w =
    Return [PStr "npx"; PStr "cypress"; PStr "run"; PStr "--browser"; browser;
            PStr "--spec"; PStr (Str.join "," l)] w
  /\ cypress_cmd self test_specs browser w =
     cypress_cmd self (PList (map PStr l)) browser w
  /\ forall spawn : spawner,
       run_cypress_tests spawn self test_specs browser w =
       run_cypress_tests spawn self (PList (map PStr l)) browser w.
Proof.
  intros T L.
  assert (A := cypress_cmd_default self test_specs browser w w' l T L).
  assert (B : cypress_cmd self (PList (map PStr l)) browser w =
              cypress_cmd self test_specs browser w).
  { rewrite A. destruct l as [|s l].
    - now apply (cypress_cmd_default self (PList []) browser w w' []).
    - apply cypress_cmd_given. }
  split; [assumption|]. split; [now symmetry|].
  intros spawn. unfold run_cypress_tests, bind. now rewrite B.
Qed.

Lemma run_without_specs_uses_listing_witness :
  cypress_cmd Demo.proj PNone (PStr "chrome") Demo.w0 =
  cypress_cmd Demo.proj
    (PList [PStr "cypress/e2e/login.cy.js"; PStr "cypress/e2e/cart.cy.ts";
            PStr "cypress/e2e/suite.cy.js"])
    (PStr "chrome") Demo.w0.
Proof.
  apply (run_without_specs_uses_listing Demo.proj PNone (PStr "chrome")
           Demo.w0 Demo.w0
           ["cypress/e2e/login.cy.js"; "cypress/e2e/cart.cy.ts";
            "cypress/e2e/suite.cy.js"]); reflexivity.
Defined.


(** Once the command is built, the method always returns a result. *)
Lemma run_cypress_tests_returns
      (spawn : spawner) (self : t) (test_specs browser : pyval)
      (w w1 : world) (cmd : list pyval) :
  cypress_cmd self test_specs browser w = Return cmd w1 ->
  exists r w', run_cypress_tests spawn self test_specs browser w = Return r w'.
Proof.
  intros C. unfold run_cypress_tests, bind at 1, try_except. rewrite C.
  match goal with |- context [match ?b with _ => _ end] => destruct b end; eauto.
Qed.

(** The run when the child process cannot be started, from the point
    where the command is ready. *)
Lemma run_cypress_tests_spawn_raises
      (spawn : spawner) (self : t) (test_specs browser : pyval)
      (w w1 w2 : world) (cmd : list pyval) (e : exn) :
  cypress_cmd self test_specs browser w = Return cmd w1 ->
  (exists d, os_getcwd w1 = Return d w1) ->
  os_chdir (project_path self) w1 = Return tt w2 ->
  subprocess_run spawn cmd w2 = Raise e w2 ->
  run_cypress_tests spawn self test_specs browser w = Return (failure e) w2.
Proof.
  intros C [d G] D S. unfold run_cypress_tests, bind, try_except.
  now rewrite C, G, D, S.
Qed.

(** C9. When the spawn is reached (the command is built, the working
    directory is read and changed to the project root) and the child
    process cannot be started, [run_cypress_tests] does not raise: it
    returns [success: False] with the text of the exception as [error]. *)
Theorem spawn_failure_is_reported
  (spawn : spawner) (self : t) (test_specs browser : pyval)
  (w w1 w2 : world) (cmd : list pyval) (argv : list string) (e : exn) :
  cypress_cmd self test_specs browser w = Return cmd w1 ->
  (exists d, os_getcwd w1 = Return d w1) ->
  os_chdir (project_path self) w1 = Return tt w2 ->
  strs_of cmd 0 = inr argv ->
  spawn argv (fs w2) (cwd w2) = SpawnError e ->
  run_cypress_tests spawn self test_specs browser w =
  Return [("success", PBool false); ("error", PStr (exn_str e))] w2.
Proof.
  intros C G D A S.
  apply (run_cypress_tests_spawn_raises spawn self test_specs browser w w1 w2 cmd e);
    try assumption.
  unfold subprocess_run. now rewrite A, S.
Qed.

Lemma spawn_failure_is_reported_witness :
  run_cypress_tests Demo.npx_missing Demo.proj
    (PList [PStr "cypress/e2e/login.cy.js"]) (PStr "chrome") Demo.w0 =
  Return [("success", PBool false);
          ("error", PStr "[Errno 2] No such file or directory: 'npx'")]
         (with_cwd Demo.w0 ["proj"]).
Proof.
  apply (spawn_failure_is_reported Demo.npx_missing Demo.proj
           (PList [PStr "cypress/e2e/login.cy.js"]) (PStr "chrome")
           Demo.w0 Demo.w0 (with_cwd Demo.w0 ["proj"])
           [PStr "npx"; PStr "cypress"; PStr "run"; PStr "--browser";
            PStr "chrome"; PStr "--spec"; PStr "cypress/e2e/login.cy.js"]
           ["npx"; "cypress"; "run"; "--browser"; "chrome"; "--spec";
            "cypress/e2e/login.cy.js"]
           (Exn FileNotFoundError "[Errno 2] No such file or directory: 'npx'")).
  - reflexivity.
  - exists "/home/user". reflexivity.
  - reflexivity.
  - reflexivity.
  - reflexivity.
Defined.

(** Whenever the spawn raises, the call ends in the directory that
    [os.chdir(self.project_path)] went to. *)
Lemma run_spawn_failure_cwd
      (spawn : spawner) (self : t) (test_specs browser : pyval)
      (w w1 w2 : world) (cmd : list pyval) (e : exn) (p : list string) :
  cypress_cmd self test_specs browser w = Return cmd w1 ->
  (exists d, os_getcwd w1 = Return d w1) ->
  os_chdir (project_path self) w1 = Return tt w2 ->
  subprocess_run spawn cmd w2 = Raise e w2 ->
  resolve w1 (project_path self) = At p ->
  cwd (final (run_cypress_tests spawn self test_specs browser w)) = p.
Proof.
  intros C G D S R.
  rewrite (run_cypress_tests_spawn_raises spawn self test_specs browser
             w w1 w2 cmd e C G D S).
  unfold os_chdir in D. rewrite R in D.
  destruct (lookup (fs w1) p) as [[|es]|]; try discriminate.
  now injection D as <-.
Qed.

(** A run whose child process completes comes back to where it started. *)
Example run_completed_restores_cwd :
  let o := run_cypress_tests Demo.npx_passes Demo.proj
             (PList [PStr "cypress/e2e/login.cy.js"]) (PStr "chrome") Demo.w0 in
  o = Return [("success", PBool true); ("stdout", PStr "All specs passed!");
              ("stderr", PStr ""); ("return_code", PInt 0)] Demo.w0
  /\ cwd (final o) = cwd Demo.w0.
Proof. split; reflexivity. Qed.

(** C1, at a failing input.  The process is in [/home/user], the project
    is [/proj], and there is no [npx]: [subprocess.run] raises after
    [os.chdir(self.project_path)], the [except] branch returns the failure
    result, and [os.chdir(original_dir)] is never reached.  The working
    directory after the call is the project root, not the caller's. *)
Theorem run_spawn_failure_leaves_cwd_in_project :
  let o := run_cypress_tests Demo.npx_missing Demo.proj
             (PList [PStr "cypress/e2e/login.cy.js"]) (PStr "chrome") Demo.w0 in
  o = Return [("success", PBool false);
              ("error", PStr "[Errno 2] No such file or directory: 'npx'")]
             (with_cwd Demo.w0 ["proj"])
  /\ cwd Demo.w0 = ["home"; "user"]
  /\ cwd (final o) = ["proj"]
  /\ cwd (final o) <> cwd Demo.w0.
Proof.
  cbv zeta. split; [reflexivity|]. split; [reflexivity|]. split; [reflexivity|].
  vm_compute. discriminate.
Qed.

(* ===================================================================== *)
(** * The server *)
(* ===================================================================== *)

Section Server.

Variable spawn : spawner.

(** One message whose text does not decode. *)
Lemma handle_one_garbage (self : t) (err : string) (w : world) :
  handle_one spawn self (Garbage err) w =
  Return tt (with_sent w (error_envelope (Exn JSONDecodeError err))).
Proof. reflexivity. Qed.

(** One message that decodes: the response of the dispatch is sent, or
    the error envelope of the exception it raised. *)
Lemma handle_one_text (self : t) (msg_data : pyval) (w : world) :
  handle_one spawn self (Text msg_data) w =
  match respond spawn self msg_data w with
  | Return response w1 => Return tt (with_sent w1 (PDict response))
  | Raise e w1 => Return tt (with_sent w1 (error_envelope e))
  end.
Proof.
  unfold handle_one, try_except, bind, json_loads, ret.
  destruct (respond spawn self msg_data w); reflexivity.
Qed.

(** The loop goes on with the state the message left. *)
Lemma handle_message_cons (self : t) (message : frame) (rest : list frame)
      (w w1 : world) :
  handle_one spawn self message w = Return tt w1 ->
  handle_message spawn self (message :: rest) w = handle_message spawn self rest w1.
Proof. intros H. cbn [handle_message]. unfold bind. now rewrite H. Qed.

(** A decoded message that is not an object has no [get]. *)
Lemma respond_not_a_dict (self : t) (msg_data : pyval) (w : world) :
  (forall items, msg_data <> PDict items) ->
  respond spawn self msg_data w =
  Raise (Exn AttributeError
           ("'" ++ type_name msg_data ++ "' object has no attribute 'get'")) w.
Proof.
  intros H. destruct msg_data; try reflexivity. now destruct (H d).
Qed.

(** C2, as the code has it.  For a message that decodes to an object
    whose [type] is absent or is none of [list_tests], [run_tests] and
    [create_test], the response stays the empty dict it was initialised
    to, and it is sent: exactly one message, [{}], goes out, nothing else
    changes, and the loop goes on with the next message. *)
Theorem unknown_type_gets_empty_reply
  (self : t) (items : pydict) (rest : list frame) (w : world) :
  let type := match assoc "type" items with Some v => v | None => PNone end in
  eq_str type "list_tests" = false ->
  eq_str type "run_tests" = false ->
  eq_str type "create_test" = false ->
  handle_one spawn self (Text (PDict items)) w = Return tt (with_sent w (PDict []))
  /\ handle_message spawn self (Text (PDict items) :: rest) w =
     handle_message spawn self rest (with_sent w (PDict [])).
Proof.
  intros type H1 H2 H3.
  assert (E : handle_one spawn self (Text (PDict items)) w =
              Return tt (with_sent w (PDict []))).
  { rewrite handle_one_text. unfold respond, bind, py_get, ret.
    fold type. now rewrite H1, H2, H3. }
  split; [assumption | now apply handle_message_cons].
Qed.

(** C4. When [json.loads] raises on a message, or the dispatch of the
    decoded message raises, the exception is caught inside the loop: one
    envelope [{type: "error", message: str(e)}] is sent on the connection,
    the handler does not raise, and the loop goes on with the messages
    that follow. *)
Theorem error_is_reported_and_loop_goes_on
  (self : t) (message : frame) (rest : list frame) (w w1 : world) (e : exn) :
  (exists err, message = Garbage err /\ e = Exn JSONDecodeError err /\ w1 = w)
  \/ (exists msg_data, message = Text msg_data
                       /\ respond spawn self msg_data w = Raise e w1) ->
  handle_one spawn self message w =
    Return tt (with_sent w1
                 (PDict [("type", PStr "error"); ("message", PStr (exn_str e))]))
  /\ handle_message spawn self (message :: rest) w =
     handle_message spawn self rest
       (with_sent w1
          (PDict [("type", PStr "error"); ("message", PStr (exn_str e))])).
Proof.
  intros H.
  assert (E : handle_one spawn self message w =
              Return tt (with_sent w1 (error_envelope e))).
  { destruct H as [(err & -> & -> & ->) | (msg_data & -> & R)].
    - apply handle_one_garbage.
    - rewrite handle_one_text. now rewrite R. }
  split; [assumption | now apply handle_message_cons].
Qed.

End Server.

Lemma unknown_type_gets_empty_reply_witness :
  sent (final (handle_message Demo.npx_missing Demo.proj
                 [Text (PDict [("type", PStr "bogus")]);
                  Text (PDict [("type", PStr "list_tests")])] Demo.w0)) =
  [PDict [];
   PDict [("type", PStr "test_list");
          ("tests", PList [PStr "cypress/e2e/login.cy.js";
                           PStr "cypress/e2e/cart.cy.ts";
                           PStr "cypress/e2e/suite.cy.js"])]].
Proof.
  rewrite (proj2 (unknown_type_gets_empty_reply Demo.npx_missing Demo.proj
                    [("type", PStr "bogus")]
                    [Text (PDict [("type", PStr "list_tests")])] Demo.w0
                    eq_refl eq_refl eq_refl)).
  reflexivity.
Defined.

(** C2, as stated, fails: a message of unknown type, and one with no
    type, are each answered. *)
Lemma unknown_type_is_answered :
  sent (final (handle_one Demo.npx_missing Demo.proj
                 (Text (PDict [("type", PStr "bogus")])) Demo.w0)) = [PDict []]
  /\ sent (final (handle_one Demo.npx_missing Demo.proj
                    (Text (PDict [])) Demo.w0)) = [PDict []]
  /\ sent (final (handle_one Demo.npx_missing Demo.proj
                    (Text (PDict [("type", PStr "bogus")])) Demo.w0))
     <> sent Demo.w0.
Proof.
  split; [reflexivity|]. split; [reflexivity|]. vm_compute. discriminate.
Qed.

Lemma error_is_reported_and_loop_goes_on_witness :
  sent (final (handle_message Demo.npx_missing Demo.proj
                 [Garbage "Expecting value: line 1 column 1 (char 0)";
                  Text (PDict [("type", PStr "list_tests")])] Demo.w0)) =
  [PDict [("type", PStr "error");
          ("message", PStr "Expecting value: line 1 column 1 (char 0)")];
   PDict [("type", PStr "test_list");
          ("tests", PList [PStr "cypress/e2e/login.cy.js";
                           PStr "cypress/e2e/cart.cy.ts";
                           PStr "cypress/e2e/suite.cy.js"])]].
Proof.
  rewrite (proj2 (error_is_reported_and_loop_goes_on Demo.npx_missing Demo.proj
                    (Garbage "Expecting value: line 1 column 1 (char 0)")
                    [Text (PDict [("type", PStr "list_tests")])]
                    Demo.w0 Demo.w0
                    (Exn JSONDecodeError "Expecting value: line 1 column 1 (char 0)")
                    (or_introl (ex_intro _ _ (conj eq_refl (conj eq_refl eq_refl)))))).
  reflexivity.
Defined.

(** A handler that raises: [create_test] with no [filename]. *)
Example handler_raises_and_loop_goes_on :
  sent (final (handle_message Demo.npx_missing Demo.proj
                 [Text (PDict [("type", PStr "create_test")]);
                  Text (PList []);
                  Text (PDict [("type", PStr "list_tests")])] Demo.w0)) =
  [PDict [("type", PStr "error");
          ("message", PStr "'NoneType' object has no attribute 'endswith'")];
   PDict [("type", PStr "error");
          ("message", PStr "'list' object has no attribute 'get'")];
   PDict [("type", PStr "test_list");
          ("tests", PList [PStr "cypress/e2e/login.cy.js";
                           PStr "cypress/e2e/cart.cy.ts";
                           PStr "cypress/e2e/suite.cy.js"])]].
Proof. reflexivity. Qed.

(* ===================================================================== *)
(** * What the methods leave alone *)
(* ===================================================================== *)

Lemma py_join_reads (sep : string) (v : pyval) (w : world) :
  final (py_join sep v w) = w.
Proof.
  destruct v; try reflexivity. simpl.
  destruct (strs_of l 0) as [[i x]|ss]; reflexivity.
Qed.

Lemma cypress_cmd_reads (self : t) (test_specs browser : pyval) (w : world) :
  final (cypress_cmd self test_specs browser w) = w.
Proof.
  unfold cypress_cmd, bind.
  destruct (negb (truthy test_specs)).
  - pose proof (list_available_tests_reads self w _ eq_refl) as L.
    destruct (list_available_tests self w) as [l w1|e w1]; simpl in L; subst w1;
      [|reflexivity].
    unfold ret at 1.
    pose proof (py_join_reads "," (PList (map PStr l)) w) as J.
    destruct (py_join "," (PList (map PStr l)) w); simpl in J; now subst.
  - unfold ret at 1.
    pose proof (py_join_reads "," test_specs w) as J.
    destruct (py_join "," test_specs w); simpl in J; now subst.
Qed.

Lemma validate_dirs_reads (self : t) (dirs : list string) (w : world) :
  final (validate_dirs self dirs w) = w.
Proof.
  induction dirs as [|d dirs IH]; cbn [validate_dirs]; [reflexivity|].
  destruct (os_path_exists _ w); [assumption | reflexivity].
Qed.

Lemma init_reads (root : string) (w : world) : final (init root w) = w.
Proof.
  unfold init, bind, validate_project_structure.
  pose proof (validate_dirs_reads {| project_path := root |} required_dirs w) as V.
  destruct (validate_dirs _ _ w); simpl in V; now subst.
Qed.

(** X2. Construction, listing and building the command only look: in
    whatever way they end, returning or raising, the file system, the
    working directory and the connection are as they were. *)
Theorem looking_changes_nothing
  (root : string) (self : t) (test_specs browser : pyval) (w : world) :
  final (init root w) = w
  /\ final (list_available_tests self w) = w
  /\ final (cypress_cmd self test_specs browser w) = w.
Proof.
  split; [apply init_reads|]. split; [|apply cypress_cmd_reads].
  now apply (list_available_tests_reads self w).
Qed.








Section Pairing.

Variable spawn : spawner.




End Pairing.

(* ===================================================================== *)
(** * More on writing a spec file *)
(* ===================================================================== *)

(** [store] leaves every other file as it is. *)
Lemma store_other_files (p : list string) :
  forall (n n' : node) (body : string) (q : list string) (b : string),
    store n p body = Some n' ->
    q <> p ->
    lookup n q = Some (File b) ->
    lookup n' q = Some (File b).
Proof.
  induction p as [|c p IH]; intros n n' body q b H Hq L.
  - destruct n; simpl in H; [|discriminate].
    destruct q; [contradiction | discriminate].
  - destruct n as [|es]; simpl in H; [discriminate|].
    destruct q as [|c' q]; [discriminate|]. simpl in L.
    destruct (String.eqb_spec c' c) as [->|N].
    + destruct (assoc c es) as [n1|] eqn:E; [|discriminate].
      destruct (store n1 p body) as [n1'|] eqn:S; [|discriminate].
      injection H as <-. simpl. rewrite assoc_set_same.
      apply (IH n1 n1' body q b S); [congruence | assumption].
    + assert (exists x, n' = Dir (assoc_set c x es)) as [x ->].
      { destruct (assoc c es) as [n1|];
          [destruct (store n1 p body); [|discriminate] | destruct p; [|discriminate]];
          injection H as <-; eauto. }
      simpl. now rewrite assoc_set_other.
Qed.

Lemma read_text_inv (path : string) (w w' : world) (body : string) :
  read_text path w = Return body w' ->
  exists q, resolve w path = At q /\ lookup (fs w) q = Some (File body).
Proof.
  unfold read_text. destruct (resolve w path) as [q| |]; try discriminate.
  destruct (lookup (fs w) q) as [[b|es]|] eqn:L; try discriminate.
  intros H. injection H as <- _. eauto.
Qed.

Lemma read_text_at (path : string) (w : world) (q : list string) (body : string) :
  resolve w path = At q -> lookup (fs w) q = Some (File body) ->
  read_text path w = Return body w.
Proof. intros R L. unfold read_text. now rewrite R, L. Qed.

Lemma open_w_raises (path : string) (w w1 : world) (e : exn) :
  open_w path w = Raise e w1 -> w1 = w.
Proof.
  unfold open_w. destruct (resolve w path) as [p| |]; try (intros H; now injection H).
  destruct (store (fs w) p ""); [discriminate|].
  destruct (lookup (fs w) p) as [[|es]|]; intros H; now injection H.
Qed.

(** A file other than the one stored reads the same afterwards. *)
Lemma store_keeps_reading (w : world) (f : list string) (b : string) (n : node)
      (other : string) (q : list string) (body : string) :
  store (fs w) f b = Some n ->
  q <> f ->
  resolve w other = At q ->
  lookup (fs w) q = Some (File body) ->
  resolve (with_fs w n) other = At q /\ lookup (fs (with_fs w n)) q = Some (File body).
Proof.
  intros S Hq R L. split.
  - apply resolve_stable; [|assumption].
    intros p es. now apply (store_keeps_dirs f (fs w) n b).
  - simpl. now apply (store_other_files f (fs w) n b).
Qed.

(** X3. Writing a spec file touches one file.  Whatever the call returns,
    any file that could be read before, at a place other than the one the
    call writes to, reads the same afterwards. *)
Theorem create_test_file_leaves_other_files
  (self : t) (filename : string) (content : pyval) (w w' : world) (r : pydict)
  (other body : string) :
  create_test_file self (PStr filename) content w = Return r w' ->
  read_text other w = Return body w ->
  resolve w other <>
    resolve w (os_path_join (project_path self)
                 ["cypress"; "integration"; spec_filename filename]) ->
  read_text other w' = Return body w'.
Proof.
  rewrite create_test_file_run. cbv zeta. intros H Rd Hne.
  apply read_text_inv in Rd as (q & Rq & Lq).
  destruct (open_w _ w) as [f w1|e w1] eqn:O.
  - apply open_w_inv in O as (Rf & n1 & S1 & ->).
    assert (Hq : q <> f) by (intros ->; congruence).
    destruct (store_keeps_reading w f "" n1 other q body S1 Hq Rq Lq) as [R1 L1].
    destruct content; simpl in H; try (injection H as _ <-; now apply (read_text_at _ _ q)).
    destruct (store n1 f s) as [n2|] eqn:S2;
      [|injection H as _ <-; now apply (read_text_at _ _ q)].
    injection H as _ <-.
    destruct (store_keeps_reading (with_fs w n1) f s n2 other q body S2 Hq R1 L1)
      as [R2 L2].
    now apply (read_text_at _ _ q).
  - apply open_w_raises in O as ->.
    injection H as _ <-. now apply (read_text_at _ _ q).
Qed.

Lemma create_test_file_leaves_other_files_witness :
  read_text "/full/cypress/e2e/login.cy.js"
            (final (create_test_file Demo.full (PStr "old.cy.js") (PStr "new") Demo.w0))
  = Return "it('logs in')"
           (final (create_test_file Demo.full (PStr "old.cy.js") (PStr "new") Demo.w0)).
Proof.
  apply (create_test_file_leaves_other_files Demo.full "old.cy.js" (PStr "new")
           Demo.w0 _ [("success", PBool true);
                      ("file_path", PStr "/full/cypress/integration/old.cy.js")]).
  - reflexivity.
  - reflexivity.
  - vm_compute. discriminate.
Defined.

(** X4. Content that is not a [str] (a [create_test] message without
    [content] passes [None]) still opens the file for writing: when the
    file can be opened, the call returns the failure result for the
    [TypeError] of [f.write], which names the type of the content ([None]
    for [None]), and the file is left empty, whatever it held before. *)
Theorem create_test_file_without_text_empties
  (self : t) (filename : string) (content : pyval) (w w1 : world)
  (f : list string) :
  let file_path :=
    os_path_join (project_path self)
                 ["cypress"; "integration"; spec_filename filename] in
  (forall s, content <> PStr s) ->
  open_w file_path w = Return f w1 ->
  create_test_file self (PStr filename) content w =
    Return [("success", PBool false);
            ("error", PStr ("write() argument must be str, not "
                            ++ arg_name content))] w1
  /\ read_text file_path w1 = Return "" w1.
Proof.
  intros file_path Hc O. split.
  - rewrite create_test_file_run. cbv zeta. fold file_path. rewrite O.
    destruct content; try reflexivity. now destruct (Hc s).
  - apply open_w_inv in O as (R & n1 & S1 & ->).
    apply (read_text_at _ _ f).
    + apply resolve_stable; [|assumption].
      intros q es. now apply (store_keeps_dirs f (fs w) n1 "").
    + simpl. now apply (store_lookup f (fs w) n1 "").
Qed.

Lemma create_test_file_without_text_empties_witness :
  read_text "/full/cypress/integration/old.cy.js" Demo.w0 = Return "stale" Demo.w0
  /\ exists w1,
       create_test_file Demo.full (PStr "old.cy.js") PNone Demo.w0 =
         Return [("success", PBool false);
                 ("error", PStr "write() argument must be str, not None")] w1
       /\ read_text "/full/cypress/integration/old.cy.js" w1 = Return "" w1.
Proof.
  split; [reflexivity|].
  exists (final (open_w "/full/cypress/integration/old.cy.js" Demo.w0)).
  apply (create_test_file_without_text_empties Demo.full "old.cy.js" PNone Demo.w0
           _ ["full"; "cypress"; "integration"; "old.cy.js"]).
  - intros s. discriminate.
  - reflexivity.
Defined.



(** X5. The last write wins, and wholly: after a successful write of one
    content under a name, writing another content under the same name
    gives the same result and the same state as writing it in the first
    place. *)
Theorem create_test_file_last_write_wins
  (self : t) (filename content1 content2 : string) (w w1 : world) (r1 : pydict) :
  create_test_file self (PStr filename) (PStr content1) w = Return r1 w1 ->
  assoc "success" r1 = Some (PBool true) ->
  create_test_file self (PStr filename) (PStr content2) w1 =
  create_test_file self (PStr filename) (PStr content2) w.
Proof.
  rewrite !create_test_file_run. cbv zeta. intros H S.
  destruct (open_w _ w) as [f wa|e wa] eqn:O;
    [|injection H as <- _; discriminate].
  apply open_w_inv in O as (R & na & Sa & ->).
  cbn [file_write] in *.
  destruct (store (fs (with_fs w na)) f content1) as [n2|] eqn:S2;
    [|injection H as <- _; discriminate].
  injection H as _ <-. simpl in S2.
  assert (R1 : resolve (with_fs (with_fs w na) n2)
                 (os_path_join (project_path self)
                    ["cypress"; "integration"; spec_filename filename]) = At f).
  { apply resolve_stable.
    - intros q es. simpl. now apply (store_keeps_dirs f na n2 content1).
    - apply resolve_stable; [|assumption].
      intros q es. now apply (store_keeps_dirs f (fs w) na ""). }
  unfold open_w. rewrite R1. simpl.
  rewrite (store_store f na n2 content1 "" S2).
  rewrite (store_store f (fs w) na "" "" Sa), Sa. simpl.
  destruct (store na f content2); reflexivity.
Qed.

Lemma create_test_file_last_write_wins_witness :
  create_test_file Demo.full (PStr "foo") (PStr "second")
    (final (create_test_file Demo.full (PStr "foo") (PStr "first") Demo.w0)) =
  create_test_file Demo.full (PStr "foo") (PStr "second") Demo.w0.
Proof.
  apply (create_test_file_last_write_wins Demo.full "foo" "first" "second" Demo.w0 _
           [("success", PBool true);
            ("file_path", PStr "/full/cypress/integration/foo.cy.js")]);
    reflexivity.
Defined.

(** X6. The name a file is written under always ends with [.cy.js] or
    [.cy.ts], and giving that name back changes nothing more: the suffix
    is never added twice. *)
Theorem spec_filename_settles (filename : string) :
  recognized (spec_filename filename) = true
  /\ spec_filename (spec_filename filename) = spec_filename filename.
Proof.
  split; [apply spec_filename_recognized|].
  apply (spec_filename_cases (spec_filename filename)).
  apply spec_filename_recognized.
Qed.

(* ===================================================================== *)
(** * Construction, listing and writing together *)
(* ===================================================================== *)

(** [validate_project_structure] checks [cypress/e2e] as one component;
    [list_available_tests] joins [cypress] and [e2e]: the same path. *)
Lemma join_cypress_e2e (root : string) :
  os_path_join root ["cypress/e2e"] = os_path_join root ["cypress"; "e2e"].
Proof.
  unfold os_path_join. cbn [fold_left].
  rewrite (join_step_after root "cypress" "e2e") by (reflexivity || discriminate).
  rewrite (join_step_relative root "cypress/e2e") by reflexivity.
  rewrite (join_step_relative root "cypress") by reflexivity.
  destruct (String.eqb root "" || Str.endswith root "/").
  - now rewrite append_assoc.
  - now rewrite !append_assoc.
Qed.

Lemma validate_dirs_inv (self : t) (dirs : list string) (w w' : world) :
  validate_dirs self dirs w = Return tt w' ->
  forall d, In d dirs ->
            os_path_exists (os_path_join (project_path self) [d]) w = true.
Proof.
  induction dirs as [|d0 dirs IH]; intros H d Hin; [contradiction|].
  cbn [validate_dirs] in H.
  destruct (os_path_exists (os_path_join (project_path self) [d0]) w) eqn:E;
    [|discriminate].
  destruct Hin as [<-|Hin]; [assumption | now apply IH].
Qed.

Lemma init_inv (root : string) (self : t) (w w' : world) :
  init root w = Return self w' ->
  self = {| project_path := root |} /\ w' = w
  /\ forall d, In d required_dirs -> os_path_exists (os_path_join root [d]) w = true.
Proof.
  unfold init, bind, validate_project_structure. intros H.
  pose proof (validate_dirs_reads {| project_path := root |} required_dirs w) as V.
  destruct (validate_dirs {| project_path := root |} required_dirs w)
    as [[] w1|e w1] eqn:E; [|discriminate].
  simpl in V. subst w1. injection H as <- <-.
  split; [reflexivity|]. split; [reflexivity|].
  apply (validate_dirs_inv {| project_path := root |} required_dirs w w E).
Qed.

(** X7. The directory that construction checks is the directory that is
    listed.  On the state in which construction succeeded, the listing
    returns, unless [cypress/e2e] is a file: then it raises
    [NotADirectoryError].  It never fails for a missing directory. *)
Theorem listing_after_construction
  (root : string) (self : t) (w w' : world) :
  init root w = Return self w' ->
  (exists l, list_available_tests self w' = Return l w')
  \/ list_available_tests self w' =
     Raise (enotdir (os_path_join root ["cypress"; "e2e"])) w'.
Proof.
  intros H. apply init_inv in H as (-> & -> & E).
  specialize (E "cypress/e2e" (or_intror (or_introl eq_refl))).
  rewrite join_cypress_e2e in E. unfold os_path_exists in E.
  rewrite list_available_tests_run. unfold os_listdir. cbn [project_path].
  destruct (resolve w _) as [p| |]; try discriminate.
  destruct (lookup (fs w) p) as [[b|es]|]; try discriminate; eauto.
Qed.

Lemma listing_after_construction_witness :
  (exists l, list_available_tests Demo.proj Demo.w0 = Return l Demo.w0)
  \/ list_available_tests Demo.proj Demo.w0 =
     Raise (enotdir (os_path_join "/proj" ["cypress"; "e2e"])) Demo.w0.
Proof.
  apply (listing_after_construction "/proj" Demo.proj Demo.w0 Demo.w0).
  reflexivity.
Defined.

Lemma has_slash_app (a b : string) :
  has_slash (a ++ b) = has_slash a || has_slash b.
Proof.
  induction a as [|c a IH]; simpl; [reflexivity|].
  now rewrite IH, orb_assoc.
Qed.

Lemma split_slash_plain (s : string) :
  has_slash s = false -> Str.split_slash s = [s].
Proof.
  induction s as [|c s IH]; simpl; [reflexivity|].
  intros H. apply orb_false_iff in H as [Hc Hs].
  now rewrite Hc, (IH Hs).
Qed.

Lemma spec_filename_no_slash (filename : string) :
  has_slash filename = false -> has_slash (spec_filename filename) = false.
Proof.
  intros H. unfold spec_filename.
  destruct (negb _ && negb _); [|assumption].
  now rewrite has_slash_app, H.
Qed.

Lemma suffixed_not_dots (p suf : string) :
  suf = ".cy.js" \/ suf = ".cy.ts" ->
  String.eqb (p ++ suf) "" = false
  /\ String.eqb (p ++ suf) "." = false
  /\ String.eqb (p ++ suf) ".." = false.
Proof.
  intros H. repeat split; apply String.eqb_neq; intros E;
    destruct H as [-> | ->]; destruct p as [|a [|b [|c p]]]; discriminate E.
Qed.

Lemma recognized_plain (name : string) :
  has_slash name = false -> recognized name = true -> plain_name name = true.
Proof.
  intros S R. unfold plain_name. rewrite S. simpl.
  apply orb_true_iff in R.
  assert (exists p suf, name = p ++ suf /\ (suf = ".cy.js" \/ suf = ".cy.ts"))
    as (p & suf & -> & Hs).
  { destruct R as [R|R]; apply endswith_inv in R as [p ->]; eauto. }
  destruct (suffixed_not_dots p suf Hs) as (-> & -> & ->). reflexivity.
Qed.

(** Path resolution takes a plain name as a name: it goes down. *)
Lemma walk_down (root : node) (cur : list string) (c : string) (cs : list string)
      (p : list string) :
  plain_name c = true ->
  walk root cur (c :: cs) = At p ->
  (exists es, lookup root cur = Some (Dir es)) /\ walk root (cur ++ [c]) cs = At p.
Proof.
  unfold plain_name. intros G.
  apply andb_true_iff in G as [G G3]. apply andb_true_iff in G as [G G2].
  apply andb_true_iff in G as [_ G1].
  apply negb_true_iff in G1, G2, G3. simpl.
  destruct (lookup root cur) as [[|es]|]; try discriminate.
  rewrite G1, G2, G3. simpl. eauto.
Qed.

(** A store below one entry of a directory does not show below another. *)
Lemma store_elsewhere (a : list string) (x y : string) (p1 q1 : list string) :
  x <> y ->
  forall (n n' : node) (b : string),
    store n (a ++ x :: p1) b = Some n' ->
    lookup n' (a ++ y :: q1) = lookup n (a ++ y :: q1).
Proof.
  intros Hxy. induction a as [|c a IH]; intros n n' b H.
  - simpl in *. destruct n as [|es]; [discriminate|].
    assert (exists v, n' = Dir (assoc_set x v es)) as [v ->].
    { destruct (assoc x es) as [m|];
        [destruct (store m p1 b); [|discriminate] | destruct p1; [|discriminate]];
        injection H as <-; eauto. }
    simpl. rewrite assoc_set_other; [reflexivity | congruence].
  - simpl in *. destruct n as [|es]; [discriminate|].
    destruct (assoc c es) as [m|] eqn:E.
    + destruct (store m (a ++ x :: p1) b) as [m'|] eqn:S; [|discriminate].
      injection H as <-. simpl. rewrite assoc_set_same. now apply (IH m m' b).
    + destruct (a ++ x :: p1)%list eqn:Z; [|discriminate].
      now destruct a.
Qed.

Lemma no_slash_relative (s : string) :
  has_slash s = false -> Str.startswith s "/" = false.
Proof.
  destruct s as [|c s]; [reflexivity|]. intros H.
  change (has_slash (String c s)) with (Ascii.eqb c "/" || has_slash s) in H.
  apply orb_false_iff in H as [H _].
  change (Str.startswith (String c s) "/") with (Ascii.eqb "/" c && true).
  now rewrite Ascii.eqb_sym, H.
Qed.

Section UnderCypress.

Variable root : string.
Variable w : world.

(** [<root>/cypress], as [os.path.join] writes it, and where resolution
    of a path that begins with it starts. *)
Let cypress_path : string := join_step root "cypress".
Let start : list string :=
  if Str.startswith cypress_path "/" then [] else cwd w.

Lemma cypress_path_not_empty : cypress_path <> "".
Proof.
  intros E. pose proof (join_step_endswith root "cypress") as H.
  fold cypress_path in H. rewrite E in H. discriminate.
Qed.

Lemma e2e_path :
  os_path_join root ["cypress"; "e2e"] = cypress_path ++ "/" ++ "e2e".
Proof.
  unfold os_path_join. cbn [fold_left].
  now rewrite (join_step_after root "cypress" "e2e") by (reflexivity || discriminate).
Qed.

Lemma integration_file_path (name : string) :
  Str.startswith name "/" = false ->
  os_path_join root ["cypress"; "integration"; name] =
  cypress_path ++ "/" ++ ("integration" ++ "/" ++ name).
Proof.
  intros H. unfold os_path_join. cbn [fold_left].
  rewrite (join_step_after (join_step root "cypress") "integration" name)
    by (reflexivity || discriminate || assumption).
  rewrite (join_step_after root "cypress" "integration")
    by (reflexivity || discriminate).
  fold cypress_path. now rewrite append_assoc.
Qed.

Lemma resolve_under_cypress (rest : string) :
  resolve w (cypress_path ++ "/" ++ rest) =
  match walk (fs w) start (Str.split_slash cypress_path) with
  | At pc => walk (fs w) pc (Str.split_slash rest)
  | NoEnt => NoEnt
  | NotDir => NotDir
  end.
Proof.
  unfold resolve.
  assert (E : String.eqb (cypress_path ++ "/" ++ rest) "" = false).
  { apply String.eqb_neq. intros E. apply cypress_path_not_empty.
    destruct cypress_path; [reflexivity | discriminate]. }
  rewrite E, (startswith_app _ _ cypress_path_not_empty), split_slash_app, walk_app.
  reflexivity.
Qed.

(** Where the listed directory and a written file are, when both resolve:
    side by side below [<root>/cypress]. *)
Lemma e2e_and_written_positions (name : string) (pe f : list string) :
  has_slash name = false ->
  plain_name name = true ->
  resolve w (os_path_join root ["cypress"; "e2e"]) = At pe ->
  resolve w (os_path_join root ["cypress"; "integration"; name]) = At f ->
  exists pc, pe = (pc ++ ["e2e"])%list /\ f = (pc ++ "integration" :: [name])%list.
Proof.
  intros Hs Hp Re Rf.
  rewrite e2e_path, resolve_under_cypress in Re.
  rewrite (integration_file_path name (no_slash_relative name Hs)),
    resolve_under_cypress, split_slash_app, (split_slash_plain name Hs) in Rf.
  destruct (walk (fs w) start (Str.split_slash cypress_path)) as [pc| |];
    try discriminate.
  exists pc. split.
  - apply (walk_down (fs w) pc "e2e" [] pe eq_refl) in Re as [_ Re].
    simpl in Re. now injection Re as <-.
  - apply (walk_down (fs w) pc "integration" [name] f eq_refl) in Rf as [_ Rf].
    apply (walk_down (fs w) _ name [] f Hp) in Rf as [_ Rf].
    simpl in Rf. injection Rf as <-. now rewrite <- app_assoc.
Qed.

End UnderCypress.

(** A store at a file written by [create_test_file] does not show in the
    listed directory. *)
Lemma listed_directory_after_store
      (w : world) (pc : list string) (name b : string) (n : node)
      (path : string) (es : list (string * node)) :
  store (fs w) (pc ++ "integration" :: [name]) b = Some n ->
  resolve w path = At (pc ++ ["e2e"]) ->
  lookup (fs w) (pc ++ ["e2e"]) = Some (Dir es) ->
  resolve (with_fs w n) path = At (pc ++ ["e2e"])
  /\ lookup (fs (with_fs w n)) (pc ++ ["e2e"]) = Some (Dir es).
Proof.
  intros S R L. split.
  - apply resolve_stable; [|assumption].
    intros q es'.
    now apply (store_keeps_dirs (pc ++ "integration" :: [name]) (fs w) n b).
  - simpl. rewrite <- L.
    apply (store_elsewhere pc "integration" "e2e" [name] [] ltac:(discriminate)
             (fs w) n b S).
Qed.

(** X8. What is written is not what is listed: files go to
    [cypress/integration], the listing reads [cypress/e2e].  After
    [create_test_file] with a file name that has no slash in it, whatever
    the call returns, the listing is what it was before. *)
Theorem written_spec_is_not_listed
  (self : t) (filename : string) (content : pyval) (w w' : world)
  (r : pydict) (l : list string) :
  has_slash filename = false ->
  create_test_file self (PStr filename) content w = Return r w' ->
  list_available_tests self w = Return l w ->
  list_available_tests self w' = Return l w'.
Proof.
  intros Hs H L.
  pose proof (spec_filename_no_slash filename Hs) as Hs'.
  pose proof (recognized_plain _ Hs' (spec_filename_recognized filename)) as Hp.
  rewrite list_available_tests_run in L. unfold os_listdir in L.
  destruct (resolve w (os_path_join (project_path self) ["cypress"; "e2e"]))
    as [pe| |] eqn:Re; try discriminate.
  destruct (lookup (fs w) pe) as [[b|es]|] eqn:Le; try discriminate.
  injection L as <-.
  assert (K : forall w1,
             resolve w1 (os_path_join (project_path self) ["cypress"; "e2e"]) = At pe ->
             lookup (fs w1) pe = Some (Dir es) ->
             list_available_tests self w1 =
             Return (map (fun f => os_path_join "cypress" ["e2e"; f])
                         (filter recognized (map fst es))) w1).
  { intros w1 R1 L1. rewrite list_available_tests_run. unfold os_listdir.
    now rewrite R1, L1. }
  rewrite create_test_file_run in H. cbv zeta in H.
  destruct (open_w _ w) as [f w1|e w1] eqn:O.
  - apply open_w_inv in O as (Rf & n1 & S1 & ->).
    destruct (e2e_and_written_positions (project_path self) w
                (spec_filename filename) pe f Hs' Hp Re Rf) as (pc & -> & ->).
    destruct (listed_directory_after_store w pc _ "" n1 _ es S1 Re Le) as [R1 L1].
    destruct content; simpl in H; try (injection H as _ <-; now apply K).
    destruct (store n1 (pc ++ ["integration"; spec_filename filename]) s)
      as [n2|] eqn:S2; [|injection H as _ <-; now apply K].
    injection H as _ <-.
    destruct (listed_directory_after_store (with_fs w n1) pc _ s n2 _ es S2 R1 L1)
      as [R2 L2].
    now apply K.
  - apply open_w_raises in O as ->. injection H as _ <-. now apply K.
Qed.

Lemma written_spec_is_not_listed_witness :
  list_available_tests Demo.full
    (final (create_test_file Demo.full (PStr "login") (PStr "X") Demo.w0)) =
  Return ["cypress/e2e/login.cy.js"]
    (final (create_test_file Demo.full (PStr "login") (PStr "X") Demo.w0)).
Proof.
  apply (written_spec_is_not_listed Demo.full "login" (PStr "X") Demo.w0 _
           [("success", PBool true);
            ("file_path", PStr "/full/cypress/integration/login.cy.js")]);
    reflexivity.
Defined.

(* ===================================================================== *)
(** * More on running the tests *)
(* ===================================================================== *)

(** The command has the browser in fifth place, as it was given. *)
Lemma cypress_cmd_shape (self : t) (test_specs browser : pyval) (w w1 : world)
      (cmd : list pyval) :
  cypress_cmd self test_specs browser w = Return cmd w1 ->
  exists spec,
    cmd = [PStr "npx"; PStr "cypress"; PStr "run"; PStr "--browser"; browser;
           PStr "--spec"; PStr spec].
Proof.
  unfold cypress_cmd, bind, ret.
  destruct (negb (truthy test_specs)).
  - destruct (list_available_tests self w) as [l w0|e w0]; [|discriminate].
    destruct (py_join "," (PList (map PStr l)) w0) as [spec w2|e w2]; [|discriminate].
    intros H. injection H as <- _. eauto.
  - destruct (py_join "," test_specs w) as [spec w2|e w2]; [|discriminate].
    intros H. injection H as <- _. eauto.
Qed.

(** X9. A browser that is not a [str] (a number in the message, say)
    starts no child process: [subprocess.run] raises [TypeError] on the
    argument vector, and the call returns the failure result, the same
    whatever the child process would have done.  The working directory
    has been changed to the project by then, and stays there. *)
Theorem run_with_browser_not_str
  (self : t) (test_specs browser : pyval) (w w1 w2 : world) (cmd : list pyval) :
  (forall s, browser <> PStr s) ->
  cypress_cmd self test_specs browser w = Return cmd w1 ->
  (exists d, os_getcwd w1 = Return d w1) ->
  os_chdir (project_path self) w1 = Return tt w2 ->
  forall spawn : spawner,
    run_cypress_tests spawn self test_specs browser w =
    Return [("success", PBool false);
            ("error", PStr ("expected str, bytes or os.PathLike object, not "
                            ++ type_name browser))] w2.
Proof.
  intros Hb C G D spawn.
  apply (run_cypress_tests_spawn_raises spawn self test_specs browser w w1 w2 cmd
           (Exn TypeError ("expected str, bytes or os.PathLike object, not "
                           ++ type_name browser)) C G D).
  destruct (cypress_cmd_shape self test_specs browser w w1 cmd C) as [spec ->].
  unfold subprocess_run.
  destruct browser; try reflexivity. now destruct (Hb s).
Qed.

Lemma run_with_browser_not_str_witness :
  run_cypress_tests Demo.npx_passes Demo.proj PNone (PInt 3) Demo.w0 =
  Return [("success", PBool false);
          ("error", PStr "expected str, bytes or os.PathLike object, not int")]
         (with_cwd Demo.w0 ["proj"]).
Proof.
  apply (run_with_browser_not_str Demo.proj PNone (PInt 3) Demo.w0 Demo.w0
           (with_cwd Demo.w0 ["proj"])
           [PStr "npx"; PStr "cypress"; PStr "run"; PStr "--browser"; PInt 3;
            PStr "--spec";
            PStr "cypress/e2e/login.cy.js,cypress/e2e/cart.cy.ts,cypress/e2e/suite.cy.js"]).
  - intros s. discriminate.
  - reflexivity.
  - exists "/home/user". reflexivity.
  - reflexivity.
Defined.

Lemma split_slash_concat (p : list string) :
  Forall (fun c => plain_name c = true) p -> p <> [] ->
  Str.split_slash (String.concat "/" p) = p.
Proof.
  assert (P : forall c, plain_name c = true -> has_slash c = false).
  { intros c H. unfold plain_name in H.
    repeat (apply andb_true_iff in H as [H _]). now apply negb_true_iff in H. }
  induction p as [|x p IH]; intros F N; [now destruct N|].
  inversion F as [|? ? Fx Fp]; subst. destruct p as [|y p].
  - simpl. now apply split_slash_plain, P.
  - change (String.concat "/" (x :: y :: p))
      with (x ++ "/" ++ String.concat "/" (y :: p)).
    rewrite split_slash_app, (split_slash_plain x (P x Fx)), IH by (assumption || discriminate).
    reflexivity.
Qed.


(** Plain names lead where they say. *)
Lemma walk_plain (root : node) (rest : list string) :
  forall (cur : list string) (m : node),
    Forall (fun c => plain_name c = true) rest ->
    lookup root (cur ++ rest) = Some m ->
    walk root cur rest = At (cur ++ rest)%list.
Proof.
  induction rest as [|c cs IH]; intros cur m F L.
  - simpl. now rewrite app_nil_r.
  - inversion F as [|? ? Fc Fcs]; subst.
    destruct (lookup_prefix_dir cur c cs root m L) as [es Lc].
    assert (G : String.eqb c "" || String.eqb c "." = false /\ String.eqb c ".." = false).
    { unfold plain_name in Fc.
      apply andb_true_iff in Fc as [Fc G3]. apply andb_true_iff in Fc as [Fc G2].
      apply andb_true_iff in Fc as [_ G1].
      apply negb_true_iff in G1, G2, G3. now rewrite G1, G2, G3. }
    destruct G as [G1 G2]. simpl. rewrite Lc, G1, G2.
    replace (cur ++ c :: cs)%list with ((cur ++ [c]) ++ cs)%list
      by (now rewrite <- app_assoc).
    apply (IH (cur ++ [c])%list m Fcs). now rewrite <- app_assoc.
Qed.

Lemma walk_skip_empty (root : node) (cur cs : list string)
      (es : list (string * node)) :
  lookup root cur = Some (Dir es) ->
  walk root cur ("" :: cs) = walk root cur cs.
Proof. intros L. simpl. now rewrite L. Qed.

(** [os.chdir(os.getcwd())] comes back: the text of a position made of
    plain names resolves to that position. *)
Lemma os_chdir_render (w : world) (p : list string) (es : list (string * node)) :
  Forall (fun c => plain_name c = true) p ->
  lookup (fs w) p = Some (Dir es) ->
  os_chdir (render p) w = Return tt (with_cwd w p).
Proof.
  intros F L. unfold os_chdir.
  assert (R : resolve w (render p) = At p).
  { unfold resolve, render. cbn [String.append String.eqb Ascii.eqb Bool.eqb].
    change (Str.startswith (String "/" (Str.join "/" p)) "/") with true.
    cbn [Str.split_slash]. change (Ascii.eqb "/" "/") with true. cbv iota.
    destruct p as [|c p].
    - simpl in *. injection L as ->. reflexivity.
    - unfold Str.join. rewrite split_slash_concat by (assumption || discriminate).
      destruct (lookup_prefix_dir [] c p (fs w) _ L) as [es0 L0].
      rewrite (walk_skip_empty (fs w) [] (c :: p) es0 L0).
      apply (walk_plain (fs w) (c :: p) [] (Dir es) F L). }
  now rewrite R, L.
Qed.

(** X10. A run whose child process completes with output that is text
    gives back what was captured, with [success] true exactly when the
    exit code is zero, and the process ends where it started -- provided
    the directory it started in is still there after the run. *)
Theorem run_completed_returns_and_restores
  (spawn : spawner) (self : t) (test_specs browser : pyval)
  (w w1 w2 : world) (cmd : list pyval) (argv : list string)
  (rc : Z) (out err : string) (n : node) :
  Forall (fun c => plain_name c = true) (cwd w) ->
  (exists es, lookup (fs w) (cwd w) = Some (Dir es)) ->
  cypress_cmd self test_specs browser w = Return cmd w1 ->
  os_chdir (project_path self) w = Return tt w2 ->
  strs_of cmd 0 = inr argv ->
  spawn argv (fs w2) (cwd w2) = Completed rc out err n ->
  (exists es, lookup n (cwd w) = Some (Dir es)) ->
  run_cypress_tests spawn self test_specs browser w =
  Return [("success", PBool (Z.eqb rc 0)); ("stdout", PStr out);
          ("stderr", PStr err); ("return_code", PInt rc)]
         (with_fs w n).
Proof.
  intros F [es0 L0] C D A S [es1 L1].
  pose proof (cypress_cmd_reads self test_specs browser w) as E.
  rewrite C in E. simpl in E. subst w1.
  unfold run_cypress_tests, bind at 1. rewrite C.
  unfold try_except, bind. unfold os_getcwd. rewrite L0, D.
  unfold subprocess_run. rewrite A, S.
  assert (W : exists p, w2 = with_cwd w p).
  { unfold os_chdir in D. destruct (resolve w (project_path self)); try discriminate.
    destruct (lookup (fs w) p) as [[|]|]; try discriminate.
    injection D as <-. eauto. }
  destruct W as [p ->].
  rewrite (os_chdir_render (with_fs (with_cwd w p) n) (cwd w) es1 F L1).
  reflexivity.
Qed.

Lemma run_completed_returns_and_restores_witness :
  run_cypress_tests Demo.npx_passes Demo.proj
    (PList [PStr "cypress/e2e/login.cy.js"]) (PStr "chrome") Demo.w0 =
  Return [("success", PBool true); ("stdout", PStr "All specs passed!");
          ("stderr", PStr ""); ("return_code", PInt 0)]
         (with_fs Demo.w0 Demo.disk).
Proof.
  apply (run_completed_returns_and_restores Demo.npx_passes Demo.proj
           (PList [PStr "cypress/e2e/login.cy.js"]) (PStr "chrome")
           Demo.w0 Demo.w0 (with_cwd Demo.w0 ["proj"])
           [PStr "npx"; PStr "cypress"; PStr "run"; PStr "--browser";
            PStr "chrome"; PStr "--spec"; PStr "cypress/e2e/login.cy.js"]
           ["npx"; "cypress"; "run"; "--browser"; "chrome"; "--spec";
            "cypress/e2e/login.cy.js"]
           0%Z "All specs passed!" "" Demo.disk).
  - repeat constructor.
  - exists []. reflexivity.
  - reflexivity.
  - reflexivity.
  - reflexivity.
  - reflexivity.
  - exists []. reflexivity.
Defined.

(* ===================================================================== *)
(** * The replies of the server *)
(* ===================================================================== *)

(** The two shapes of the result of a run. *)
Lemma run_result_shape
      (spawn : spawner) (self : t) (test_specs browser : pyval) (w w' : world)
      (d : pydict) :
  run_cypress_tests spawn self test_specs browser w = Return d w' ->
  (exists rc out err,
     d = [("success", PBool (Z.eqb rc 0)); ("stdout", PStr out);
          ("stderr", PStr err); ("return_code", PInt rc)])
  \/ (exists e, d = failure e).
Proof.
  unfold run_cypress_tests, bind at 1.
  destruct (cypress_cmd self test_specs browser w) as [cmd w0|e w0]; [|discriminate].
  unfold try_except, bind, ret.
  destruct (os_getcwd w0) as [dir w1|e w1]; [|intros H; injection H as <- _; eauto].
  destruct (os_chdir (project_path self) w1) as [[] w2|e w2];
    [|intros H; injection H as <- _; eauto].
  destruct (subprocess_run spawn cmd w2) as [res w3|e w3];
    [|intros H; injection H as <- _; eauto].
  destruct (os_chdir dir w3) as [[] w4|e w4]; intros H; injection H as <- _; eauto.
Qed.

(** The two shapes of the result of a write. *)
Lemma create_result_shape (self : t) (filename content : pyval) (w w' : world)
      (d : pydict) :
  create_test_file self filename content w = Return d w' ->
  (exists path, d = [("success", PBool true); ("file_path", PStr path)])
  \/ (exists e, d = failure e).
Proof.
  destruct filename; try discriminate.
  rewrite create_test_file_run. cbv zeta.
  destruct (open_w _ w) as [f w1|e w1]; [|intros H; injection H as <- _; eauto].
  destruct (file_write f content w1); intros H; injection H as <- _; eauto.
Qed.

Section Replies.

Variable spawn : spawner.

(** X11. The reply to [list_tests] is the listing of that moment, under
    [tests] in a [test_list] envelope; when the listing raises, it is the
    error envelope.  Nothing but the reply changes. *)
Theorem list_tests_reply (self : t) (items : pydict) (w : world) :
  assoc "type" items = Some (PStr "list_tests") ->
  handle_one spawn self (Text (PDict items)) w =
  Return tt
    (with_sent w
       match list_available_tests self w with
       | Return l _ =>
           PDict [("type", PStr "test_list"); ("tests", PList (map PStr l))]
       | Raise e _ => error_envelope e
       end).
Proof.
  intros T. rewrite handle_one_text.
  unfold respond, bind at 1, py_get at 1, ret at 1. rewrite T.
  cbn [eq_str String.eqb Ascii.eqb Bool.eqb andb]. cbv iota. unfold bind.
  pose proof (list_available_tests_reads self w _ eq_refl) as L.
  destruct (list_available_tests self w) as [l w1|e w1]; simpl in L; subst w1;
    reflexivity.
Qed.


(** X12. The reply to [run_tests] is the result of the run with [type:
    test_results] put in front of its fields, for a failed run as for a
    completed one; a message without [specs] runs with [None] (all the
    listed specs), one without [browser] with ['chrome'].  When the run
    raises (specs that cannot be joined, a listing that fails), the reply
    is the error envelope. *)
Theorem run_tests_reply (self : t) (items : pydict) (w : world) :
  assoc "type" items = Some (PStr "run_tests") ->
  let test_specs := match assoc "specs" items with Some v => v | None => PNone end in
  let browser :=
    match assoc "browser" items with Some v => v | None => PStr "chrome" end in
  let o := run_cypress_tests spawn self test_specs browser w in
  handle_one spawn self (Text (PDict items)) w =
  Return tt
    (with_sent (final o)
       match o with
       | Return d _ => PDict (("type", PStr "test_results") :: d)
       | Raise e _ => error_envelope e
       end).
Proof.
  intros T test_specs browser o. rewrite handle_one_text.
  unfold respond, bind at 1, py_get at 1, ret at 1. rewrite T.
  cbn [eq_str String.eqb Ascii.eqb Bool.eqb andb]. cbv iota.
  unfold bind, py_get, ret. fold test_specs browser. fold o.
  destruct o as [d w1|e w1] eqn:O; [|reflexivity].
  destruct (run_result_shape spawn self test_specs browser w w1 d O)
    as [(rc & out & err & ->) | (e & ->)]; reflexivity.
Qed.


(** X13. The reply to [create_test] is the result of the write with
    [type: test_creation] put in front; [filename] and [content] that the
    message lacks are [None].  A file name that is not a [str] makes the
    method raise before anything is opened: the reply is the error
    envelope of the [AttributeError], and nothing but the reply changes. *)
Theorem create_test_reply (self : t) (items : pydict) (w : world) :
  assoc "type" items = Some (PStr "create_test") ->
  let filename := match assoc "filename" items with Some v => v | None => PNone end in
  let content := match assoc "content" items with Some v => v | None => PNone end in
  let o := create_test_file self filename content w in
  handle_one spawn self (Text (PDict items)) w =
    Return tt
      (with_sent (final o)
         match o with
         | Return d _ => PDict (("type", PStr "test_creation") :: d)
         | Raise e _ => error_envelope e
         end)
  /\ ((forall s, filename <> PStr s) ->
      o = Raise (Exn AttributeError
                   ("'" ++ type_name filename
                    ++ "' object has no attribute 'endswith'")) w).
Proof.
  intros T filename content o. split.
  - rewrite handle_one_text.
    unfold respond, bind at 1, py_get at 1, ret at 1. rewrite T.
    cbn [eq_str String.eqb Ascii.eqb Bool.eqb andb]. cbv iota.
    unfold bind, py_get, ret. fold filename content. fold o.
    destruct o as [d w1|e w1] eqn:O; [|reflexivity].
    destruct (create_result_shape self filename content w w1 d O)
      as [(path & ->) | (e & ->)]; reflexivity.
  - intros H. unfold o. destruct filename; try reflexivity. now destruct (H s).
Qed.


End Replies.

Lemma list_tests_reply_witness :
  handle_one Demo.npx_missing Demo.full
    (Text (PDict [("type", PStr "list_tests")])) Demo.w0 =
  Return tt
    (with_sent Demo.w0
       (PDict [("type", PStr "test_list");
               ("tests", PList [PStr "cypress/e2e/login.cy.js"])])).
Proof.
  apply (list_tests_reply Demo.npx_missing Demo.full
           [("type", PStr "list_tests")] Demo.w0).
  reflexivity.
Defined.

Lemma run_tests_reply_witness :
  handle_one Demo.npx_missing Demo.full
    (Text (PDict [("type", PStr "run_tests")])) Demo.w0 =
  Return tt
    (with_sent (with_cwd Demo.w0 ["full"])
       (PDict [("type", PStr "test_results"); ("success", PBool false);
               ("error", PStr "[Errno 2] No such file or directory: 'npx'")])).
Proof.
  apply (run_tests_reply Demo.npx_missing Demo.full [("type", PStr "run_tests")] Demo.w0).
  reflexivity.
Defined.

Lemma create_test_reply_witness :
  handle_one Demo.npx_missing Demo.full
    (Text (PDict [("type", PStr "create_test"); ("content", PStr "X")])) Demo.w0 =
  Return tt
    (with_sent Demo.w0
       (PDict [("type", PStr "error");
               ("message", PStr "'NoneType' object has no attribute 'endswith'")])).
Proof.
  apply (create_test_reply Demo.npx_missing Demo.full
           [("type", PStr "create_test"); ("content", PStr "X")] Demo.w0).
  reflexivity.
Defined.

(* ===================================================================== *)
(** * The client *)
(* ===================================================================== *)

Lemma length_append (a b : string) :
  String.length (a ++ b) = String.length a + String.length b.
Proof. induction a as [|c a IH]; simpl; [reflexivity | now rewrite IH]. Qed.

Lemma append_inv_head (a x y : string) : a ++ x = a ++ y -> x = y.
Proof.
  induction a as [|c a IH]; simpl; intros H; [assumption|].
  injection H as H. auto.
Qed.

(** Two splittings of one string at one length are the same. *)
Lemma append_same_length (a b x y : string) :
  a ++ x = b ++ y -> String.length a = String.length b -> a = b /\ x = y.
Proof.
  revert b. induction a as [|c a IH]; intros [|d b] H L; simpl in *;
    try discriminate.
  - now split.
  - injection H as -> H. injection L as L.
    destruct (IH b H L) as [-> ->]. now split.
Qed.

Lemma append_same_tail_length (a b x y : string) :
  a ++ x = b ++ y -> String.length x = String.length y -> a = b /\ x = y.
Proof.
  intros H L. apply append_same_length; [assumption|].
  apply (f_equal String.length) in H. rewrite !length_append in H. lia.
Qed.

Import ClaudeMCPConnector.

(** X14. The generated script is the fixed text with the description put
    in twice, as it is: its length is 470 characters more than twice the
    description's, and two descriptions give the same script only if they
    are the same. *)
Theorem generated_script_tells_description (self self' : ClaudeMCPConnector.t)
        (d d' : string) :
  String.length (generate_test_from_description self d) = 470 + 2 * String.length d
  /\ (generate_test_from_description self d = generate_test_from_description self' d'
      -> d = d').
Proof.
  assert (L : forall s x,
             String.length (generate_test_from_description s x)
             = 470 + 2 * String.length x).
  { intros s x. unfold generate_test_from_description.
    rewrite !length_append.
    change (String.length script_head) with 35.
    change (String.length script_middle) with 168.
    change (String.length script_tail) with 267. lia. }
  split; [apply L|]. intros E.
  pose proof (f_equal String.length E) as N. rewrite !L in N.
  unfold generate_test_from_description in E.
  apply append_inv_head in E.
  apply append_same_length in E; [tauto | lia].
Qed.

(** X15. What the summary says of a run.  A run that completed with exit
    code zero passed; one that completed otherwise failed, and the details
    are its standard error.  A run that could not be made (the result has
    [error] and no [stderr]) failed with the details [Unknown error]: the
    text of [error] is not shown. *)
Theorem summary_of_a_run
  (py_str : pyval -> string) (spawn : spawner) (self : CypressMCPConnector.t)
  (test_specs browser : pyval) (w w' : world) (d : pydict) :
  (forall s, py_str (PStr s) = s) ->
  run_cypress_tests spawn self test_specs browser w = Return d w' ->
  (exists rc out err,
     d = [("success", PBool (Z.eqb rc 0)); ("stdout", PStr out);
          ("stderr", PStr err); ("return_code", PInt rc)]
     /\ analyze_test_results py_str (PDict d) =
        inr (if Z.eqb rc 0
             then "✅ Test passed successfully! All assertions met."
             else lines ["❌ Test failed."; "Error Details:"; err]))
  \/ (exists e,
        d = [("success", PBool false); ("error", PStr (exn_str e))]
        /\ analyze_test_results py_str (PDict d) =
           inr (lines ["❌ Test failed."; "Error Details:"; "Unknown error"])).
Proof.
  intros P R.
  destruct (run_result_shape spawn self test_specs browser w w' d R)
    as [(rc & out & err & ->) | (e & ->)].
  - left. exists rc, out, err. split; [reflexivity|].
    unfold analyze_test_results. cbn [assoc String.eqb Ascii.eqb Bool.eqb andb truthy].
    cbv iota. destruct (Z.eqb rc 0); [reflexivity | now rewrite P].
  - right. exists e. split; [reflexivity|].
    unfold analyze_test_results, failure.
    cbn [assoc String.eqb Ascii.eqb Bool.eqb andb truthy]. cbv iota.
    now rewrite P.
Qed.

Lemma summary_of_a_run_witness :
  analyze_test_results Demo.py_str
    (PDict [("success", PBool false);
            ("error", PStr "[Errno 2] No such file or directory: 'npx'")]) =
  inr (lines ["❌ Test failed."; "Error Details:"; "Unknown error"]).
Proof.
  destruct (summary_of_a_run Demo.py_str Demo.npx_missing Demo.proj
              (PList [PStr "cypress/e2e/login.cy.js"]) (PStr "chrome")
              Demo.w0 (with_cwd Demo.w0 ["proj"])
              [("success", PBool false);
               ("error", PStr "[Errno 2] No such file or directory: 'npx'")]
              (fun s => eq_refl) eq_refl)
    as [(rc & out & err & E & _) | (e & _ & A)].
  - discriminate E.
  - exact A.
Defined.

(** X16. [run_tests] never returns a result and never asks for a run.  It
    sends the [create_test] request; then either no reply comes and it
    waits, or the reply comes -- a [str], as [recv] gives it, which is not
    decoded -- and [creation_response.get] raises [AttributeError].  The
    [run_tests] message is not sent in either case. *)
Theorem client_run_tests_stops_at_the_reply
  (self : ClaudeMCPConnector.t) (test_description : string) (c : conn) :
  run_tests self test_description c =
  match inbox c with
  | [] =>
      Waiting {| outbox := outbox c ++ [create_request self test_description];
                 inbox := [] |}
  | _ :: rest =>
      Failed (Exn AttributeError "'str' object has no attribute 'get'")
             {| outbox := outbox c ++ [create_request self test_description];
                inbox := rest |}
  end.
Proof.
  unfold run_tests, co_bind, ws_send, ws_recv. simpl.
  destruct (inbox c); reflexivity.
Qed.

Lemma slug_char_of_word (c : ascii) :
  N.ltb (N_of_ascii c) 128 = true -> is_word (lower_char c) = true ->
  slug_char (lower_char c) = true.
Proof.
  destruct c as [[|] [|] [|] [|] [|] [|] [|] [|]]; vm_compute; congruence.
Qed.

Lemma sub_nonword_slug (s : string) :
  is_ascii s = true ->
  forall in_run, all_chars slug_char (sub_nonword in_run (str_lower s)) = true.
Proof.
  induction s as [|c s IH]; intros A in_run; [reflexivity|].
  simpl in A. apply andb_true_iff in A as [Ac As].
  cbn [str_lower sub_nonword].
  destruct (is_word (lower_char c)) eqn:W.
  - cbn [all_chars]. now rewrite (slug_char_of_word c Ac W), IH.
  - destruct in_run; [now apply IH|]. cbn [all_chars]. now rewrite IH.
Qed.

Lemma slug_no_slash (s : string) :
  all_chars slug_char s = true -> has_slash s = false.
Proof.
  induction s as [|c s IH]; [reflexivity|]. cbn [all_chars has_slash].
  intros H. apply andb_true_iff in H as [Hc Hs]. rewrite (IH Hs), orb_false_r.
  destruct (Ascii.eqb_spec c "/") as [->|]; [discriminate Hc | reflexivity].
Qed.

Lemma not_recognized_spec_js (x : string) : recognized (x ++ ".spec.js") = false.
Proof.
  unfold recognized. apply orb_false_iff.
  split; apply not_true_is_false; intros H; apply endswith_inv in H as [p H];
    change (x ++ ".spec.js") with (x ++ ".s" ++ "pec.js") in H;
    rewrite <- append_assoc in H;
    apply append_same_tail_length in H as [_ H]; discriminate || reflexivity.
Qed.

(** X17. The name the client asks for ends with [.spec.js], which is
    neither of the suffixes the server knows: the server adds [.cy.js] to
    it, and the file is written as [generated_<slug>.spec.js.cy.js].  For
    an ASCII description the slug holds only lowercase letters, digits
    and underscores, so the name has no slash in it. *)
Theorem generated_filename_on_the_server (test_description : string) :
  spec_filename (generated_filename test_description) =
    "generated_" ++ re_sub_nonword (str_lower test_description) ++ ".spec.js.cy.js"
  /\ (is_ascii test_description = true ->
      all_chars slug_char (re_sub_nonword (str_lower test_description)) = true
      /\ has_slash (generated_filename test_description) = false).
Proof.
  split.
  - destruct (spec_filename_cases (generated_filename test_description)) as [A _].
    rewrite A.
    + unfold generated_filename. now rewrite !append_assoc.
    + unfold generated_filename. rewrite <- append_assoc.
      apply not_recognized_spec_js.
  - intros A.
    pose proof (sub_nonword_slug test_description A false) as S.
    split; [assumption|].
    unfold generated_filename, re_sub_nonword. rewrite !has_slash_app.
    now rewrite (slug_no_slash _ S).
Qed.

Lemma generated_filename_on_the_server_witness :
  all_chars slug_char
    (re_sub_nonword (str_lower "Verify user can log in with valid credentials"))
  = true
  /\ has_slash (generated_filename "Verify user can log in with valid credentials")
     = false.
Proof.
  apply (generated_filename_on_the_server
           "Verify user can log in with valid credentials").
  reflexivity.
Defined.

(** The description of [main], and the file the server writes for it. *)
Example generated_filename_of_main :
  generated_filename "Verify user can log in with valid credentials" =
    "generated_verify_user_can_log_in_with_valid_credentials.spec.js"
  /\ exists w',
       create_test_file Demo.full
         (PStr (generated_filename "Verify user can log in with valid credentials"))
         (PStr "X") Demo.w0 =
       Return [("success", PBool true);
               ("file_path",
                PStr "/full/cypress/integration/generated_verify_user_can_log_in_with_valid_credentials.spec.js.cy.js")]
              w'.
Proof. split; [reflexivity|]. eexists. vm_compute. reflexivity. Qed.

(* ===================================================================== *)
(** * Runs that do not get to the child process *)
(* ===================================================================== *)

(** X18. Specs that are a non-empty list with an item that is not a [str]
    make [run_cypress_tests] raise: the [TypeError] of [','.join] comes
    before the [try] block, so it reaches the caller instead of becoming a
    failure result.  Nothing has been changed by then, and no child
    process is started. *)
Theorem run_with_specs_not_str
  (spawn : spawner) (self : CypressMCPConnector.t) (l : list pyval)
  (browser : pyval) (w : world) (i : nat) (x : pyval) :
  l <> [] ->
  strs_of l 0 = inl (i, x) ->
  run_cypress_tests spawn self (PList l) browser w =
  Raise (Exn TypeError
           ("sequence item " ++ string_of_nat i ++ ": expected str instance, "
            ++ type_name x ++ " found")) w.
Proof.
  intros N S. unfold run_cypress_tests, bind at 1, cypress_cmd, bind at 1.
  destruct l as [|v l]; [contradiction|].
  cbn [truthy negb]. unfold ret at 1, bind, py_join. now rewrite S.
Qed.

Lemma run_with_specs_not_str_witness :
  run_cypress_tests Demo.npx_passes Demo.proj
    (PList [PStr "cypress/e2e/login.cy.js"; PInt 7]) (PStr "chrome") Demo.w0 =
  Raise (Exn TypeError "sequence item 1: expected str instance, int found") Demo.w0.
Proof.
  apply (run_with_specs_not_str Demo.npx_passes Demo.proj
           [PStr "cypress/e2e/login.cy.js"; PInt 7] (PStr "chrome") Demo.w0
           1 (PInt 7)).
  - discriminate.
  - reflexivity.
Defined.

(** X19. When the project directory cannot be entered (it is gone, or it
    is a relative path and the process is elsewhere), the run returns the
    failure result for the error of [os.chdir], the same whatever the
    child process would have done: none is started, and the process stays
    where it was. *)
Theorem run_without_project_directory
  (self : CypressMCPConnector.t) (test_specs browser : pyval)
  (w w1 : world) (cmd : list pyval) (e : exn) :
  cypress_cmd self test_specs browser w = Return cmd w1 ->
  (exists d, os_getcwd w1 = Return d w1) ->
  os_chdir (CypressMCPConnector.project_path self) w1 = Raise e w1 ->
  forall spawn : spawner,
    run_cypress_tests spawn self test_specs browser w =
    Return [("success", PBool false); ("error", PStr (exn_str e))] w
    /\ w1 = w.
Proof.
  intros C [d G] D spawn.
  pose proof (cypress_cmd_reads self test_specs browser w) as E.
  rewrite C in E. simpl in E. subst w1. split; [|reflexivity].
  unfold run_cypress_tests, bind at 1. rewrite C.
  unfold try_except, bind. now rewrite G, D.
Qed.

Lemma run_without_project_directory_witness :
  run_cypress_tests Demo.npx_passes
    {| CypressMCPConnector.project_path := "proj" |}
    (PList [PStr "a.cy.js"]) (PStr "chrome") Demo.w0 =
  Return [("success", PBool false);
          ("error", PStr "[Errno 2] No such file or directory: 'proj'")] Demo.w0.
Proof.
  apply (run_without_project_directory
           {| CypressMCPConnector.project_path := "proj" |}
           (PList [PStr "a.cy.js"]) (PStr "chrome") Demo.w0 Demo.w0
           [PStr "npx"; PStr "cypress"; PStr "run"; PStr "--browser";
            PStr "chrome"; PStr "--spec"; PStr "a.cy.js"]
           (enoent "proj")).
  - reflexivity.
  - exists "/home/user". reflexivity.
  - reflexivity.
Defined.

Lemma generated_script_tells_description_witness :
  String.length (generate_test_from_description Demo.me "log in") = 482
  /\ "log in" = "log in".
Proof.
  split.
  - apply (proj1 (generated_script_tells_description Demo.me Demo.me "log in" "log in")).
  - apply (proj2 (generated_script_tells_description Demo.me Demo.me "log in" "log in")).
    reflexivity.
Defined.

(** X20. A child process that runs to its end but writes output that is
    not text makes [subprocess.run] raise after the run: the call returns
    the failure result for that error, although the tests ran and the
    file system is as the child left it, and the working directory stays
    in the project. *)
Theorem run_with_output_not_text
  (spawn : spawner) (self : CypressMCPConnector.t) (test_specs browser : pyval)
  (w w1 w2 : world) (cmd : list pyval) (argv : list string) (e : exn) (n : node) :
  cypress_cmd self test_specs browser w = Return cmd w1 ->
  (exists d, os_getcwd w1 = Return d w1) ->
  os_chdir (CypressMCPConnector.project_path self) w1 = Return tt w2 ->
  strs_of cmd 0 = inr argv ->
  spawn argv (fs w2) (cwd w2) = Undecodable e n ->
  run_cypress_tests spawn self test_specs browser w =
  Return [("success", PBool false); ("error", PStr (exn_str e))] (with_fs w2 n).
Proof.
  intros C [d G] D A S.
  unfold run_cypress_tests, bind at 1. rewrite C.
  unfold try_except, bind. rewrite G, D.
  unfold subprocess_run. now rewrite A, S.
Qed.

Lemma run_with_output_not_text_witness :
  run_cypress_tests Demo.npx_garbles Demo.proj
    (PList [PStr "cypress/e2e/login.cy.js"]) (PStr "chrome") Demo.w0 =
  Return [("success", PBool false);
          ("error",
           PStr "'utf-8' codec can't decode byte 0xff in position 0: invalid start byte")]
         (with_cwd Demo.w0 ["proj"]).
Proof.
  apply (run_with_output_not_text Demo.npx_garbles Demo.proj
           (PList [PStr "cypress/e2e/login.cy.js"]) (PStr "chrome")
           Demo.w0 Demo.w0 (with_cwd Demo.w0 ["proj"])
           [PStr "npx"; PStr "cypress"; PStr "run"; PStr "--browser";
            PStr "chrome"; PStr "--spec"; PStr "cypress/e2e/login.cy.js"]
           ["npx"; "cypress"; "run"; "--browser"; "chrome"; "--spec";
            "cypress/e2e/login.cy.js"]
           (Exn UnicodeDecodeError
              "'utf-8' codec can't decode byte 0xff in position 0: invalid start byte")
           Demo.disk).
  - reflexivity.
  - exists "/home/user". reflexivity.
  - reflexivity.
  - reflexivity.
  - reflexivity.
Defined.
